(** * blog-admin: the API client/cache and the list and form controllers

    A shallow embedding of
    - [composables/useApi] (the [fetchData]/[clearCache] pair and its
      in-memory [Map] cache),
    - the blog list component ([fetchBlogPosts], [filteredBlogPosts],
      [confirmDelete], [cancelDelete], [proceedDelete], [truncateContent]),
    - the blog post form component ([fetchBlogPost], [fetchAuthors], the
      [watch] on [blogPost], [submitForm]).

    Conventions of the embedding.
    - Decoded response bodies are untyped in the source ([any]); they are
      modelled by [value], the JSON fragment of JavaScript values.  Numbers
      are the integer-valued ones (identifiers, lengths), carried as [Z].
      A string is the sequence of its code units, and its length their
      number.
    - An [async] function is a computation in the monad [M]: state passing
      with a normal or an exceptional outcome.  [await] is sequencing; each
      handler is run to completion, so interleavings of two handlers at
      their suspension points are outside the model.  The list page keeps,
      for each wait on [fetchData], the flags its template reads
      meanwhile.
    - The network is an oracle [net]: given the requests this client
      instance has issued so far and the new request, it gives the reply.
      Every theorem holds for every oracle. *)

From Stdlib Require Import ZArith String Ascii List Bool Lia.
From stdpp Require Import base option list gmap strings pretty fin_maps.

Local Open Scope Z_scope.
Local Open Scope string_scope.

(** ** JavaScript values *)

#[warnings="-register-all"]
Inductive value : Type :=
| VUndef
| VNull
| VBool (b : bool)
| VNum (n : Z)
| VStr (s : string)
| VArr (items : list value)
| VObj (fields : list (string * value)).

(** [!!v]: the falsy values are [undefined], [null], [false], [0], [""]. *)
Definition truthy (v : value) : bool :=
  match v with
  | VUndef | VNull => false
  | VBool b => b
  | VNum n => negb (Z.eqb n 0)
  | VStr s => negb (String.eqb s "")
  | VArr _ | VObj _ => true
  end.

(** [a || b] *)
Definition js_or (a b : value) : value := if truthy a then a else b.

(** [a && b] *)
Definition js_and (a b : value) : value := if truthy a then b else a.

Fixpoint assoc (k : string) (fs : list (string * value)) : value :=
  match fs with
  | [] => VUndef
  | (k', v) :: fs' => if String.eqb k k' then v else assoc k fs'
  end.

(** Errors thrown in this code base are native [Error] objects: a name, a
    message, and no [response] property unless someone attached one. *)
Record js_error : Type := mk_error {
  err_name : string;
  err_message : string;
  err_response : value
}.

Definition Error (msg : string) : js_error := mk_error "Error" msg VUndef.
Definition TypeError (msg : string) : js_error := mk_error "TypeError" msg VUndef.
Definition SyntaxError (msg : string) : js_error := mk_error "SyntaxError" msg VUndef.

Inductive outcome (A : Type) : Type :=
| Returned (a : A)
| Thrown (e : js_error).
Arguments Returned {A} a.
Arguments Thrown {A} e.

(** [v.k] for a property name [k] that is neither an index nor [length]:
    reading a property of [null] or [undefined] throws, a primitive or an
    array has no such own property, an object is searched. *)
Definition get_prop (v : value) (k : string) : outcome value :=
  match v with
  | VUndef => Thrown (TypeError ("Cannot read properties of undefined (reading '" ++ k ++ "')"))
  | VNull => Thrown (TypeError ("Cannot read properties of null (reading '" ++ k ++ "')"))
  | VObj fs => Returned (assoc k fs)
  | _ => Returned VUndef
  end.

(** [v?.k] *)
Definition get_prop_opt (v : value) (k : string) : value :=
  match v with
  | VObj fs => assoc k fs
  | _ => VUndef
  end.

(** [a === b] between values that do not share a reference: primitives
    compare by type and content, arrays and objects are equal only to
    themselves. *)
Definition strict_eq (a b : value) : bool :=
  match a, b with
  | VUndef, VUndef => true
  | VNull, VNull => true
  | VBool x, VBool y => Bool.eqb x y
  | VNum x, VNum y => Z.eqb x y
  | VStr x, VStr y => String.eqb x y
  | _, _ => false
  end.

(** Equality of two values as data, aggregates compared entry by entry. *)
Fixpoint value_eqb (a b : value) {struct a} : bool :=
  match a, b with
  | VUndef, VUndef => true
  | VNull, VNull => true
  | VBool x, VBool y => Bool.eqb x y
  | VNum x, VNum y => Z.eqb x y
  | VStr x, VStr y => String.eqb x y
  | VArr xs, VArr ys =>
      (fix items_eqb (xs ys : list value) {struct xs} : bool :=
         match xs, ys with
         | [], [] => true
         | x :: xs', y :: ys' => value_eqb x y && items_eqb xs' ys'
         | _, _ => false
         end) xs ys
  | VObj fs, VObj gs =>
      (fix fields_eqb (fs gs : list (string * value)) {struct fs} : bool :=
         match fs, gs with
         | [], [] => true
         | (k, x) :: fs', (l, y) :: gs' =>
             String.eqb k l && value_eqb x y && fields_eqb fs' gs'
         | _, _ => false
         end) fs gs
  | _, _ => false
  end.

Definition join (sep : string) (parts : list string) : string :=
  match parts with
  | [] => ""
  | p :: ps => fold_left (fun acc q => acc ++ sep ++ q) ps p
  end.

(** [`${v}`], i.e. [String(v)]. *)
Fixpoint to_string (v : value) : string :=
  match v with
  | VUndef => "undefined"
  | VNull => "null"
  | VBool true => "true"
  | VBool false => "false"
  | VNum n => pretty n
  | VStr s => s
  | VArr items =>
      join "," (map (fun x => match x with
                              | VUndef | VNull => ""
                              | _ => to_string x
                              end) items)
  | VObj _ => "[object Object]"
  end.

(** ** Computations: state passing with exceptions *)

Definition M (St A : Type) : Type := St → outcome A * St.

Definition ret {St A} (a : A) : M St A := fun s => (Returned a, s).

Definition throw {St A} (e : js_error) : M St A := fun s => (Thrown e, s).

Definition bind {St A B} (m : M St A) (k : A → M St B) : M St B :=
  fun s =>
    match m s with
    | (Returned a, s') => k a s'
    | (Thrown e, s') => (Thrown e, s')
    end.

Definition gets {St A} (f : St → A) : M St A := fun s => (Returned (f s), s).

Definition modify {St} (f : St → St) : M St unit := fun s => (Returned tt, f s).

(** An expression that may throw, evaluated inside a computation. *)
Definition eval {St A} (o : outcome A) : M St A := fun s => (o, s).

(** [try { body } catch (e) { handler e }] *)
Definition try_catch {St A} (body : M St A) (handler : js_error → M St A) : M St A :=
  fun s =>
    match body s with
    | (Returned a, s') => (Returned a, s')
    | (Thrown e, s') => handler e s'
    end.

(** [try { body } finally { fin }]: [fin] runs on both exits of [body]; an
    exception of [fin] replaces the outcome of [body]. *)
Definition try_finally {St A} (body : M St A) (fin : M St unit) : M St A :=
  fun s =>
    match body s with
    | (r, s') =>
        match fin s' with
        | (Returned _, s'') => (r, s'')
        | (Thrown e, s'') => (Thrown e, s'')
        end
    end.

(** Run a computation on a component of the state. *)
Definition zoom {St Sub A} (proj : St → Sub) (upd : Sub → St → St)
    (m : M Sub A) : M St A :=
  fun s => match m (proj s) with (r, sub) => (r, upd sub s) end.

#[global] Instance M_bind {St} : MBind (M St) := fun A B k m => bind m k.
#[global] Instance M_ret {St} : MRet (M St) := fun A a => ret a.

(** ** composables/useApi *)

(** [RequestInit], as far as this code base fills it in.  The body text is
    always [JSON.stringify(payload)]; it is represented by [payload]. *)
Record RequestInit : Type := mk_init {
  init_method : option string;
  init_body : option value;
  init_headers : gmap string string
}.

(** The default [options = {}]. *)
Definition no_options : RequestInit := mk_init None None ∅.

Record request : Type := mk_request {
  req_url : string;
  req_init : RequestInit
}.

(** What [fetch] resolves to: the [ok] flag, the result of [text()] and the
    result of [json()] (which throws on a body that is not JSON). *)
Record response : Type := mk_response {
  resp_ok : bool;
  resp_text : string;
  resp_json : outcome value
}.

Inductive reply : Type :=
| NetworkFailure (e : js_error)      (* [fetch] itself rejects *)
| Arrived (r : response).

(** The state owned by one [useApi()] instance, with the requests it has
    sent, oldest first. *)
Record api_state : Type := mk_api {
  cache : gmap string value;
  requests : list request
}.

Definition new_api : api_state := mk_api ∅ [].

Definition cache_set (endpoint : string) (data : value) (a : api_state) : api_state :=
  mk_api (<[endpoint := data]> (cache a)) (requests a).

Definition cache_delete (endpoint : string) (a : api_state) : api_state :=
  mk_api (delete endpoint (cache a)) (requests a).

Definition log_request (r : request) (a : api_state) : api_state :=
  mk_api (cache a) (requests a ++ [r]).

(** What the composable takes from its surroundings:
    [config.public.apiUrl], [config.public.apiKey], and the server behind
    the global [fetch]. *)
Class Environment : Type := mk_env {
  apiUrl : string;
  apiKey : string;
  net : list request → request → reply
}.

Section UseApi.

Context {env : Environment}.

(** The global [fetch]. *)
Definition fetch (url : string) (init : RequestInit) : M api_state response :=
  sent ← gets requests;
  modify (log_request (mk_request url init));;
  match net sent (mk_request url init) with
  | NetworkFailure e => throw e
  | Arrived r => ret r
  end.

(** [{ 'Content-Type': 'application/json', 'x-key': apiKey,
      ...options.headers }]: the caller's entries win. *)
Definition merged_headers (options : RequestInit) : gmap string string :=
  init_headers options ∪
    <["Content-Type" := "application/json"]> (<["x-key" := apiKey]> ∅).

Definition fetchData (endpoint : string) (options : RequestInit) : M api_state value :=
  cached ← gets (fun a => cache a !! endpoint);
  match cached with
  | Some v => ret v
  | None =>
      let headers := merged_headers options in
      response ← fetch (apiUrl ++ "/" ++ endpoint)
                    (mk_init (init_method options) (init_body options) headers);
      if negb (resp_ok response) then throw (Error (resp_text response))
      else
        data ← eval (resp_json response);
        modify (cache_set endpoint data);;
        ret data
  end.

Definition clearCache (endpoint : string) : M api_state unit :=
  modify (cache_delete endpoint).

End UseApi.

(** ** Arrays and strings of the standard library *)

Definition is_array (v : value) : bool :=
  match v with VArr _ => true | _ => false end.

(** The receiver of an array method call [v.name(...)]. *)
Definition array_receiver (v : value) (name : string) : outcome (list value) :=
  match v with
  | VArr items => Returned items
  | VUndef => Thrown (TypeError ("Cannot read properties of undefined (reading '" ++ name ++ "')"))
  | VNull => Thrown (TypeError ("Cannot read properties of null (reading '" ++ name ++ "')"))
  | _ => Thrown (TypeError (name ++ " is not a function"))
  end.

(** [Array.prototype.filter]: elements are visited in index order, the
    kept ones are appended to a new array; an exception of the callback
    ends the call. *)
Fixpoint filter_items (pred : value → outcome bool) (items : list value)
    : outcome (list value) :=
  match items with
  | [] => Returned []
  | x :: rest =>
      match pred x with
      | Thrown e => Thrown e
      | Returned keep =>
          match filter_items pred rest with
          | Thrown e => Thrown e
          | Returned kept => Returned (if keep then x :: kept else kept)
          end
      end
  end.

(** [Array.prototype.find]: the first element the callback accepts, or
    [undefined]. *)
Fixpoint find_item (pred : value → outcome bool) (items : list value)
    : outcome value :=
  match items with
  | [] => Returned VUndef
  | x :: rest =>
      match pred x with
      | Thrown e => Thrown e
      | Returned true => Returned x
      | Returned false => find_item pred rest
      end
  end.

(** [String.prototype.slice(start, end)]: a negative index counts from the
    end of the string, both are clamped to the string. *)
Definition slice (s : string) (start stop : Z) : string :=
  let len := Z.of_nat (String.length s) in
  let from := if (start <? 0)%Z then Z.max (len + start) 0 else Z.min start len in
  let to := if (stop <? 0)%Z then Z.max (len + stop) 0 else Z.min stop len in
  String.substring (Z.to_nat from) (Z.to_nat (Z.max (to - from) 0)) s.

(** ** The blog list component *)

(** What the template reads of the flags: [v-if="isLoading"] for the
    spinner, [:disabled="isDeleting"] for the buttons of the dialog,
    [v-if="showConfirmModal"] for the dialog. *)
Record page_flags : Type := mk_flags {
  flag_loading : bool;
  flag_deleting : bool;
  flag_modal : bool
}.

(** The refs of the component, its client, the console and the router,
    and in [while_waiting] the flags as the template reads them each time
    a handler of the page is suspended on a call of [fetchData], oldest
    first. *)
Record list_state : Type := mk_list {
  isLoading : bool;
  isDeleting : bool;
  blogPosts : value;
  showConfirmModal : bool;
  postToDelete : value;
  selectedStatus : string;
  list_api : api_state;
  console_error : list (string * js_error);
  list_navigations : list string;
  while_waiting : list page_flags
}.

(** The refs as [setup] creates them. *)
Definition list_setup : list_state :=
  mk_list true false (VArr []) false VNull "all" new_api [] [] [].

Definition set_isLoading (b : bool) (s : list_state) : list_state :=
  mk_list b (isDeleting s) (blogPosts s) (showConfirmModal s) (postToDelete s)
    (selectedStatus s) (list_api s) (console_error s) (list_navigations s)
    (while_waiting s).

Definition set_isDeleting (b : bool) (s : list_state) : list_state :=
  mk_list (isLoading s) b (blogPosts s) (showConfirmModal s) (postToDelete s)
    (selectedStatus s) (list_api s) (console_error s) (list_navigations s)
    (while_waiting s).

Definition set_blogPosts (v : value) (s : list_state) : list_state :=
  mk_list (isLoading s) (isDeleting s) v (showConfirmModal s) (postToDelete s)
    (selectedStatus s) (list_api s) (console_error s) (list_navigations s)
    (while_waiting s).

Definition set_showConfirmModal (b : bool) (s : list_state) : list_state :=
  mk_list (isLoading s) (isDeleting s) (blogPosts s) b (postToDelete s)
    (selectedStatus s) (list_api s) (console_error s) (list_navigations s)
    (while_waiting s).

Definition set_postToDelete (v : value) (s : list_state) : list_state :=
  mk_list (isLoading s) (isDeleting s) (blogPosts s) (showConfirmModal s) v
    (selectedStatus s) (list_api s) (console_error s) (list_navigations s)
    (while_waiting s).

Definition set_selectedStatus (f : string) (s : list_state) : list_state :=
  mk_list (isLoading s) (isDeleting s) (blogPosts s) (showConfirmModal s)
    (postToDelete s) f (list_api s) (console_error s) (list_navigations s)
    (while_waiting s).

Definition set_list_api (a : api_state) (s : list_state) : list_state :=
  mk_list (isLoading s) (isDeleting s) (blogPosts s) (showConfirmModal s)
    (postToDelete s) (selectedStatus s) a (console_error s) (list_navigations s)
    (while_waiting s).

(** [console.error(label, error)] *)
Definition log_error (label : string) (e : js_error) (s : list_state) : list_state :=
  mk_list (isLoading s) (isDeleting s) (blogPosts s) (showConfirmModal s)
    (postToDelete s) (selectedStatus s) (list_api s)
    (console_error s ++ [(label, e)]) (list_navigations s)
    (while_waiting s).


(** The page as it stands while a handler waits. *)
Definition suspend (s : list_state) : list_state :=
  mk_list (isLoading s) (isDeleting s) (blogPosts s) (showConfirmModal s)
    (postToDelete s) (selectedStatus s) (list_api s) (console_error s)
    (list_navigations s)
    (while_waiting s ++ [mk_flags (isLoading s) (isDeleting s) (showConfirmModal s)]).

Definition DELETE : RequestInit := mk_init (Some "DELETE") None ∅.

Section BlogList.

Context {env : Environment}.

(** The component's own [useApi()] instance. *)
Definition list_api_call {A} (m : M api_state A) : M list_state A :=
  zoom list_api set_list_api m.

(** [await fetchData(...)]: the handler is suspended, with the page as it
    stands, until the call has settled. *)
Definition list_await {A} (m : M api_state A) : M list_state A :=
  modify suspend;; list_api_call m.

(** The body of the [try] block of [fetchBlogPosts]. *)
Definition fetchBlogPosts_try : M list_state unit :=
  response ← list_await (fetchData "blogs" no_options);
  data ← eval (get_prop response "data");
  modify (set_blogPosts (js_or data (VArr []))).

Definition fetchBlogPosts : M list_state unit :=
  modify (set_isLoading true);;
  try_finally
    (try_catch fetchBlogPosts_try
       (fun error => modify (log_error "Failed to fetch blog posts:" error)))
    (modify (set_isLoading false)).

(** The computed [filteredBlogPosts]: a function of the refs it reads. *)
Definition filteredBlogPosts (s : list_state) : outcome value :=
  if String.eqb (selectedStatus s) "all" then Returned (blogPosts s)
  else
    match array_receiver (blogPosts s) "filter" with
    | Thrown e => Thrown e
    | Returned items =>
        match filter_items
                (fun post =>
                   match get_prop post "status" with
                   | Thrown e => Thrown e
                   | Returned st => Returned (strict_eq st (VStr (selectedStatus s)))
                   end) items with
        | Thrown e => Thrown e
        | Returned kept => Returned (VArr kept)
        end
    end.


Definition confirmDelete (id : Z) : M list_state unit :=
  modify (set_postToDelete (VNum id));;
  modify (set_showConfirmModal true).

Definition cancelDelete : M list_state unit :=
  modify (set_showConfirmModal false);;
  modify (set_postToDelete VNull).

(** The body of the [try] block of [proceedDelete].  The handler waits
    for [fetchBlogPosts()] where [fetchBlogPosts] itself waits. *)
Definition proceedDelete_try : M list_state unit :=
  target ← gets postToDelete;
  list_await (fetchData ("blogs/" ++ to_string target) DELETE);;
  list_api_call (clearCache "blogs");;
  fetchBlogPosts;;
  modify (set_showConfirmModal false);;
  modify (set_postToDelete VNull).

Definition proceedDelete : M list_state unit :=
  target ← gets postToDelete;
  if truthy target then
    modify (set_isDeleting true);;
    try_finally
      (try_catch proceedDelete_try
         (fun error => modify (log_error "Failed to delete the post:" error)))
      (modify (set_isDeleting false))
  else ret tt.

Definition truncateContent (content : string) (maxLength : Z) : string :=
  if (Z.of_nat (String.length content) <=? maxLength)%Z then content
  else slice content 0 maxLength ++ "...".

(** [truncateContent(content)]: [maxLength] defaults to 100. *)
Definition truncateContent_default (content : string) : string :=
  truncateContent content 100.

End BlogList.

(** ** The blog post form component *)

(** [BlogPostCreateProps], with the fields holding whatever the bindings
    and the watcher put there. *)
Record BlogPostCreateProps : Type := mk_form {
  form_title : value;
  form_content : value;
  form_author : value;
  form_status : value
}.

Definition blank_author : value := VObj [("id", VNum 0); ("name", VStr "")].

Definition blank_form : BlogPostCreateProps :=
  mk_form (VStr "") (VStr "") blank_author (VStr "published").

Record form_state : Type := mk_form_state {
  isSubmitting : bool;
  route_params_id : value;
  authors : value;
  currentAuthor : value;
  blogPost : value;
  errors : list value;
  form : BlogPostCreateProps;
  form_api : api_state;
  form_navigations : list string
}.

(** The refs as [setup] creates them, for a route whose [id] parameter is
    [id] ([VUndef] on the creation page). *)
Definition form_setup (id : value) : form_state :=
  mk_form_state false id (VArr []) (VStr "") VNull [] blank_form new_api [].

Definition set_isSubmitting (b : bool) (s : form_state) : form_state :=
  mk_form_state b (route_params_id s) (authors s) (currentAuthor s) (blogPost s)
    (errors s) (form s) (form_api s) (form_navigations s).

Definition set_authors (v : value) (s : form_state) : form_state :=
  mk_form_state (isSubmitting s) (route_params_id s) v (currentAuthor s) (blogPost s)
    (errors s) (form s) (form_api s) (form_navigations s).

Definition set_currentAuthor (v : value) (s : form_state) : form_state :=
  mk_form_state (isSubmitting s) (route_params_id s) (authors s) v (blogPost s)
    (errors s) (form s) (form_api s) (form_navigations s).

Definition set_blogPost (v : value) (s : form_state) : form_state :=
  mk_form_state (isSubmitting s) (route_params_id s) (authors s) (currentAuthor s) v
    (errors s) (form s) (form_api s) (form_navigations s).

Definition set_errors (es : list value) (s : form_state) : form_state :=
  mk_form_state (isSubmitting s) (route_params_id s) (authors s) (currentAuthor s)
    (blogPost s) es (form s) (form_api s) (form_navigations s).

(** [errors.value.push(msg)] *)
Definition push_error (msg : string) (s : form_state) : form_state :=
  set_errors (errors s ++ [VStr msg]) s.

Definition set_form (f : BlogPostCreateProps) (s : form_state) : form_state :=
  mk_form_state (isSubmitting s) (route_params_id s) (authors s) (currentAuthor s)
    (blogPost s) (errors s) f (form_api s) (form_navigations s).

Definition set_form_api (a : api_state) (s : form_state) : form_state :=
  mk_form_state (isSubmitting s) (route_params_id s) (authors s) (currentAuthor s)
    (blogPost s) (errors s) (form s) a (form_navigations s).

Definition navigateTo (path : string) (s : form_state) : form_state :=
  mk_form_state (isSubmitting s) (route_params_id s) (authors s) (currentAuthor s)
    (blogPost s) (errors s) (form s) (form_api s) (form_navigations s ++ [path]).

Definition PUT (payload : value) : RequestInit := mk_init (Some "PUT") (Some payload) ∅.
Definition POST (payload : value) : RequestInit := mk_init (Some "POST") (Some payload) ∅.

Section BlogPostForm.

Context {env : Environment}.

Definition form_api_call {A} (m : M api_state A) : M form_state A :=
  zoom form_api set_form_api m.

(** The computed [isEditMode]: [!!blogPost.value?.id]. *)
Definition isEditMode (s : form_state) : bool :=
  truthy (get_prop_opt (blogPost s) "id").

(** The callback of [watch(blogPost, ...)]. *)
Definition on_blogPost (newBlogPost : value) : M form_state unit :=
  if truthy newBlogPost then
    title ← eval (get_prop newBlogPost "title");
    content ← eval (get_prop newBlogPost "content");
    author ← eval (get_prop newBlogPost "author");
    status ← eval (get_prop newBlogPost "status");
    modify (set_form (mk_form (js_or title (VStr "")) (js_or content (VStr ""))
                        (js_or author blank_author) (js_or status (VStr "published"))))
  else modify (set_form blank_form).

(** [Object.is(old, v)], as the setter of the ref tests it.  Primitives
    are compared as such.  An object is the one the ref holds only if
    [fetchData] served it from the cache and the ref holds that entry; a
    body decoded for this call is a new object. *)
Definition same_as_held (served : option value) (old v : value) : bool :=
  match v with
  | VArr _ | VObj _ =>
      match served with
      | Some _ => value_eqb old v
      | None => false
      end
  | _ => strict_eq old v
  end.

(** [blogPost.value = v], with [served] the cache entry the value came
    from, if it came from the cache: the watcher is run when the ref
    changes.  The callback is queued in the source and runs after the
    statement that follows the assignment; it writes [form] only and
    reads its argument only, so running it at once gives the same state. *)
Definition assign_blogPost (served : option value) (v : value) : M form_state unit :=
  old ← gets blogPost;
  modify (set_blogPost v);;
  if same_as_held served old v then ret tt else on_blogPost v.

Definition fetchBlogPost : M form_state unit :=
  id ← gets route_params_id;
  if truthy id then
    try_catch
      (served ← gets (fun s => cache (form_api s) !! ("blogs/" ++ to_string id));
       response ← form_api_call
                    (fetchData ("blogs/" ++ to_string id) no_options);
       assign_blogPost served (js_or response VNull);;
       modify (set_currentAuthor (js_or (get_prop_opt response "author") (VStr ""))))
      (fun error => modify (push_error "Failed to fetch the blog post."))
  else ret tt.

Definition fetchAuthors : M form_state unit :=
  try_catch
    (response ← form_api_call (fetchData "authors" no_options);
     data ← eval (get_prop response "data");
     modify (set_authors data))
    (fun error => modify (push_error "Failed to fetch authors.")).

(** [onMounted] *)
Definition form_mounted : M form_state unit :=
  fetchBlogPost;; fetchAuthors.

(** [authors.value.find(author => author.name === currentAuthor.value)] *)
Definition find_selectedAuthor (s : form_state) : outcome value :=
  match array_receiver (authors s) "find" with
  | Thrown e => Thrown e
  | Returned items =>
      find_item (fun author =>
                   match get_prop author "name" with
                   | Thrown e => Thrown e
                   | Returned name => Returned (strict_eq name (currentAuthor s))
                   end) items
  end.

(** [selectedAuthor ? selectedAuthor.id : form.value.author.id] *)
Definition resolve_authorId (s : form_state) : outcome value :=
  match find_selectedAuthor s with
  | Thrown e => Thrown e
  | Returned selectedAuthor =>
      if truthy selectedAuthor then get_prop selectedAuthor "id"
      else get_prop (form_author (form s)) "id"
  end.

Definition payload_of (f : BlogPostCreateProps) (authorId : value) : value :=
  VObj [("title", form_title f); ("content", form_content f);
        ("author_id", authorId); ("status", form_status f)].

(** The body of the [try] block of [submitForm]; the early [return]
    is the first branch. *)
Definition submitForm_try : M form_state unit :=
  authorId ← (fun s => (resolve_authorId s, s));
  if negb (truthy authorId) then modify (push_error "Author is required.")
  else
    f ← gets form;
    let payload := payload_of f authorId in
    edit ← gets isEditMode;
    (if edit : bool then
       post ← gets blogPost;
       form_api_call
         (fetchData
            ("blogs/" ++ to_string (get_prop_opt post "id")) (PUT payload))
     else
       form_api_call (fetchData "blogs" (POST payload)));;
    modify (navigateTo "/").

(** The [catch] block of [submitForm]. *)
Definition submitForm_catch (error : js_error) : M form_state unit :=
  let resp := err_response error in
  let data := get_prop_opt resp "data" in
  let errs := get_prop_opt data "errors" in
  match errs with
  | VArr items =>
      if truthy resp && truthy data then modify (set_errors items)
      else modify (push_error "An unexpected error occurred. Please try again.")
  | _ => modify (push_error "An unexpected error occurred. Please try again.")
  end.

Definition submitForm : M form_state unit :=
  modify (set_errors []);;
  modify (set_isSubmitting true);;
  try_finally
    (try_catch submitForm_try submitForm_catch)
    (modify (set_isSubmitting false);;
     form_api_call (clearCache "blogs")).

End BlogPostForm.

(** ** Histories of one client instance *)

(** A call on a [useApi()] instance. *)
Inductive api_call : Type :=
| CallFetchData (endpoint : string) (options : RequestInit)
| CallClearCache (endpoint : string).

Definition clears (endpoint : string) (c : api_call) : bool :=
  match c with
  | CallClearCache e => String.eqb e endpoint
  | CallFetchData _ _ => false
  end.

Section ApiHistory.

Context {env : Environment}.

(** The request [fetchData] builds on a cache miss. *)
Definition request_for (endpoint : string) (options : RequestInit) : request :=
  mk_request (apiUrl ++ "/" ++ endpoint)
    (mk_init (init_method options) (init_body options) (merged_headers options)).

Definition run_call (c : api_call) (a : api_state) : api_state :=
  match c with
  | CallFetchData e o => snd (fetchData e o a)
  | CallClearCache e => snd (clearCache e a)
  end.

Definition run_calls (cs : list api_call) (a : api_state) : api_state :=
  fold_left (fun acc c => run_call c acc) cs a.

End ApiHistory.

(** ** The declared types of types/BlogPost.ts *)

Inductive post_status : Type := published | unpublished.

#[global] Instance post_status_eq_dec : EqDecision post_status.
Proof. solve_decision. Defined.

Definition status_name (st : post_status) : string :=
  match st with
  | published => "published"
  | unpublished => "unpublished"
  end.

Record BlogPost : Type := mk_post {
  post_id : Z;
  post_title : string;
  post_content : string;
  post_author : string;
  post_status_of : post_status
}.

Record Author : Type := mk_author {
  author_id : Z;
  author_name : string
}.

(** The decoded JSON object of a well-typed post, and of an author. *)
Definition BlogPost_value (p : BlogPost) : value :=
  VObj [("id", VNum (post_id p)); ("title", VStr (post_title p));
        ("content", VStr (post_content p)); ("author", VStr (post_author p));
        ("status", VStr (status_name (post_status_of p)))].

Definition Author_value (a : Author) : value :=
  VObj [("id", VNum (author_id a)); ("name", VStr (author_name a))].

(** ** A sample server, for running the components *)

Module Sample.

Definition url : string := "https://api.example.test".

Definition ann : Author := mk_author 1 "Ann".

Definition post5 : BlogPost := mk_post 5 "Hello" "First post" "Ann" published.
Definition post6 : BlogPost := mk_post 6 "Draft" "Not yet" "Ann" unpublished.

Definition ok_json (v : value) : reply :=
  Arrived (mk_response true "" (Returned v)).

Definition not_found : reply :=
  Arrived (mk_response false "Not Found"
             (Thrown (SyntaxError "Unexpected token N in JSON"))).

(** Serves the two posts and the one author, and acknowledges requests
    for post 6; every other path is a 404. *)
Definition server (sent : list request) (r : request) : reply :=
  if String.eqb (req_url r) (url ++ "/blogs") then
    ok_json (VObj [("data", VArr [BlogPost_value post5; BlogPost_value post6])])
  else if String.eqb (req_url r) (url ++ "/blogs/5") then
    ok_json (BlogPost_value post5)
  else if String.eqb (req_url r) (url ++ "/blogs/6") then
    ok_json (VObj [("message", VStr "done")])
  else if String.eqb (req_url r) (url ++ "/authors") then
    ok_json (VObj [("data", VArr [Author_value ann])])
  else not_found.

(** A server that is down: every request gets a 500 with a text body. *)
Definition broken (sent : list request) (r : request) : reply :=
  Arrived (mk_response false "Internal Server Error"
             (Thrown (SyntaxError "Unexpected token I in JSON"))).

Definition up : Environment := mk_env url "secret" server.
Definition down : Environment := mk_env url "secret" broken.

(** The edit page of post 5, after [onMounted] has run. *)
Definition edit_page : form_state :=
  snd (form_mounted (env := up) (form_setup (VStr "5"))).

(** The creation page, after [onMounted] has run. *)
Definition create_page : form_state :=
  snd (form_mounted (env := up) (form_setup VUndef)).

(** The list page after its first load. *)
Definition list_page : list_state :=
  snd (fetchBlogPosts (env := up) list_setup).

(** The list page with the confirmation dialog open for post 5. *)
Definition confirming : list_state :=
  snd (confirmDelete 5 list_page).

End Sample.

(** ** Histories of the two components *)


(** What can happen on the form page: the two loads, an input through one
    of the [v-model] bindings of [form], and a submission. *)
Inductive form_event : Type :=
| FormFetchBlogPost
| FormFetchAuthors
| FormInput (draft : BlogPostCreateProps)
| FormSubmit.

Section ComponentHistory.

Context {env : Environment}.



Definition run_form_event (ev : form_event) (s : form_state) : form_state :=
  match ev with
  | FormFetchBlogPost => snd (fetchBlogPost s)
  | FormFetchAuthors => snd (fetchAuthors s)
  | FormInput draft => set_form draft s
  | FormSubmit => snd (submitForm s)
  end.

Definition run_form_events (evs : list form_event) (s : form_state) : form_state :=
  fold_left (fun acc ev => run_form_event ev acc) evs s.

End ComponentHistory.

(** * Properties *)

(** Unfolds the operations of [M] so that a computation applied to a state
    reduces to a case analysis. *)
Ltac unfold_M :=
  unfold mbind, mret, M_bind, M_ret, bind, ret, throw, gets, modify, eval,
    try_catch, try_finally, zoom in *.

Example to_string_num : to_string (VNum 42) = "42".
Proof. vm_compute. reflexivity. Qed.

Example to_string_neg : to_string (VNum (-7)) = "-7".
Proof. vm_compute. reflexivity. Qed.

Example to_string_arr : to_string (VArr [VNum 1; VNull; VStr "a"]) = "1,,a".
Proof. vm_compute. reflexivity. Qed.

(** ** The API client *)

Section UseApiFacts.

Context {env : Environment}.


(** A cached endpoint is answered without touching the state. *)
Lemma fetchData_hit endpoint options a v :
  cache a !! endpoint = Some v →
  fetchData endpoint options a = (Returned v, a).
Proof. intros H. unfold fetchData. unfold_M. rewrite H. reflexivity. Qed.

(** On a miss exactly one request is sent, and only a decoded successful
    reply is stored. *)
Lemma fetchData_miss endpoint options a :
  cache a !! endpoint = None →
  fetchData endpoint options a =
    let r := request_for endpoint options in
    let sent := log_request r a in
    match net (requests a) r with
    | NetworkFailure e => (Thrown e, sent)
    | Arrived resp =>
        if resp_ok resp then
          match resp_json resp with
          | Returned data => (Returned data, cache_set endpoint data sent)
          | Thrown e => (Thrown e, sent)
          end
        else (Thrown (Error (resp_text resp)), sent)
    end.
Proof.
  intros H. unfold fetchData, fetch, request_for. unfold_M. rewrite H. simpl.
  destruct (net _ _) as [e | resp]; [reflexivity |].
  destruct (resp_ok resp); simpl; [| reflexivity].
  destruct (resp_json resp); reflexivity.
Qed.

(** Whatever [fetchData] returns is what the cache holds afterwards. *)
Lemma fetchData_returned endpoint options a v :
  fst (fetchData endpoint options a) = Returned v →
  cache (snd (fetchData endpoint options a)) !! endpoint = Some v.
Proof.
  destruct (cache a !! endpoint) as [w |] eqn:Hc.
  - rewrite (fetchData_hit _ _ _ _ Hc). simpl. congruence.
  - rewrite (fetchData_miss _ _ _ Hc). simpl.
    destruct (net _ _) as [e | resp]; simpl; [discriminate |].
    destruct (resp_ok resp); simpl; [| discriminate].
    destruct (resp_json resp); simpl; [| discriminate].
    intros [= ->]. apply lookup_insert_eq.
Qed.

(** No call of [fetchData] removes or replaces an existing entry. *)
Lemma fetchData_keeps_entry endpoint options a key v :
  cache a !! key = Some v →
  cache (snd (fetchData endpoint options a)) !! key = Some v.
Proof.
  intros Hk.
  destruct (cache a !! endpoint) as [w |] eqn:Hc.
  - rewrite (fetchData_hit _ _ _ _ Hc). exact Hk.
  - rewrite (fetchData_miss _ _ _ Hc). simpl.
    destruct (net _ _) as [e | resp]; simpl; [exact Hk |].
    destruct (resp_ok resp); simpl; [| exact Hk].
    destruct (resp_json resp); simpl; [| exact Hk].
    rewrite lookup_insert_ne; [exact Hk | congruence].
Qed.

Lemma run_call_keeps_entry c a key v :
  clears key c = false →
  cache a !! key = Some v →
  cache (run_call c a) !! key = Some v.
Proof.
  destruct c as [e o | e]; simpl; intros Hc Hk.
  - by apply fetchData_keeps_entry.
  - apply String.eqb_neq in Hc. by rewrite lookup_delete_ne.
Qed.



(** C5. [clearCache(E)] leaves no entry for [E], touches no other entry
    and sends nothing; doing it twice is doing it once, and on an absent
    key it changes nothing.  The next [fetchData(E)] sends exactly one
    request, whatever the cache held before. *)
Theorem clearCache_then_fetchData endpoint options a :
  let cleared := snd (clearCache endpoint a) in
  cache cleared !! endpoint = None ∧
  (∀ other, other ≠ endpoint → cache cleared !! other = cache a !! other) ∧
  requests cleared = requests a ∧
  snd (clearCache endpoint cleared) = cleared ∧
  (cache a !! endpoint = None → cleared = a) ∧
  requests (snd (fetchData endpoint options cleared)) =
    (requests a ++ [request_for endpoint options])%list.
Proof.
  simpl. unfold cache_delete. simpl.
  assert (Hgone : delete endpoint (cache a) !! endpoint = None)
    by apply lookup_delete_eq.
  repeat split.
  - exact Hgone.
  - intros other Hne. by apply lookup_delete_ne.
  - f_equal. by apply delete_id.
  - intros Hnone. destruct a as [c rs]. simpl in *. f_equal. by apply delete_id.
  - rewrite fetchData_miss by exact Hgone. simpl.
    destruct (net _ _) as [e | resp]; [reflexivity |].
    destruct (resp_ok resp); [| reflexivity].
    destruct (resp_json resp); reflexivity.
Qed.

(** C6. On a reply with a non-success status, [fetchData] rejects with an
    [Error] whose message is the body text; one request was sent and no
    second one, and the cache is what it was, with no entry for the
    endpoint. *)
Theorem fetchData_rejects_on_http_error endpoint options a resp :
  cache a !! endpoint = None →
  net (requests a) (request_for endpoint options) = Arrived resp →
  resp_ok resp = false →
  let result := fetchData endpoint options a in
  fst result = Thrown (Error (resp_text resp)) ∧
  err_message (Error (resp_text resp)) = resp_text resp ∧
  requests (snd result) = (requests a ++ [request_for endpoint options])%list ∧
  cache (snd result) = cache a ∧
  cache (snd result) !! endpoint = None.
Proof.
  intros Hmiss Hreply Hok. simpl.
  rewrite (fetchData_miss _ _ _ Hmiss). simpl. rewrite Hreply, Hok. simpl.
  auto.
Qed.

End UseApiFacts.


Lemma clearCache_then_fetchData_witness :
  let a := snd (fetchData (env := Sample.up) "authors" no_options new_api) in
  cache (snd (clearCache "blogs" a)) !! "authors" = cache a !! "authors" ∧
  snd (clearCache "blogs" a) = a.
Proof.
  intros a.
  pose proof (clearCache_then_fetchData (env := Sample.up) "blogs" no_options a)
    as (_ & Hother & _ & _ & Hnoop & _).
  split.
  - apply Hother. discriminate.
  - apply Hnoop. reflexivity.
Defined.

Lemma fetchData_rejects_on_http_error_witness :
  fst (fetchData (env := Sample.down) "blogs" no_options new_api)
  = Thrown (Error "Internal Server Error").
Proof.
  exact (proj1 (fetchData_rejects_on_http_error (env := Sample.down) "blogs" no_options
                  new_api
                  (mk_response false "Internal Server Error"
                     (Thrown (SyntaxError "Unexpected token I in JSON")))
                  eq_refl eq_refl eq_refl)).
Defined.

(** ** The blog list component *)

(** [substring 0 n s] is the [n]-character prefix of [s]. *)
Lemma substring_prefix (n : nat) (s : string) :
  (n ≤ String.length s)%nat →
  ∃ rest, s = substring 0 n s ++ rest ∧ String.length (substring 0 n s) = n.
Proof.
  revert n. induction s as [| c s IH]; intros n Hn; simpl in *.
  - assert (n = 0%nat) as -> by lia. exists "". auto.
  - destruct n as [| n]; simpl.
    + exists (String c s). auto.
    + destruct (IH n ltac:(lia)) as (rest & Hs & Hlen).
      exists rest. split; [| by f_equal].
      change (String c s = String c (substring 0 n s ++ rest)). by f_equal.
Qed.

Lemma substring_all (s : string) : substring 0 (String.length s) s = s.
Proof. induction s as [| c s IH]; simpl; [reflexivity | by rewrite IH]. Qed.

Lemma status_name_inj (a b : post_status) : status_name a = status_name b → a = b.
Proof. destruct a, b; simpl; intros H; first [reflexivity | discriminate H]. Qed.

Lemma status_name_not_all (st : post_status) : String.eqb (status_name st) "all" = false.
Proof. destruct st; reflexivity. Qed.

(** On decoded well-typed posts, the callback of [filteredBlogPosts] never
    throws and keeps exactly the posts of the selected status. *)
Lemma filter_items_by_status (sel : post_status) (posts : list BlogPost) :
  filter_items
    (fun post =>
       match get_prop post "status" with
       | Thrown e => Thrown e
       | Returned st => Returned (strict_eq st (VStr (status_name sel)))
       end) (map BlogPost_value posts)
  = Returned (map BlogPost_value (filter (fun p => post_status_of p = sel) posts)).
Proof.
  induction posts as [| p posts IH]; [reflexivity |].
  cbn [map filter_items]. rewrite IH.
  cbn [BlogPost_value get_prop assoc String.eqb Ascii.eqb Bool.eqb strict_eq].
  rewrite filter_cons.
  destruct (decide (post_status_of p = sel)) as [-> | Hne].
  - by rewrite String.eqb_refl.
  - destruct (String.eqb_spec (status_name (post_status_of p)) (status_name sel)) as [Heq | _];
      [by apply status_name_inj in Heq | reflexivity].
Qed.

Section BlogListFacts.

Context {env : Environment}.


(** [fetchBlogPosts] handles every failure itself. *)
Lemma fetchBlogPosts_resolves s : fst (fetchBlogPosts s) = Returned tt.
Proof.
  unfold fetchBlogPosts, fetchBlogPosts_try, list_await, list_api_call.
  unfold_M. simpl.
  destruct (fetchData "blogs" no_options (list_api s)) as [[response | e] a']; simpl;
    [| reflexivity].
  destruct (get_prop response "data"); reflexivity.
Qed.


(** C9. With the filter on "all" the computed list is the stored
    collection itself.  With the filter on a status it is the stored
    posts of that status, in their stored order: the result of filtering
    the list, hence a sublist of it containing exactly the posts whose
    status is the selected one.  The computed value is a function of the
    state and changes none of it. *)
Theorem filteredBlogPosts_spec (posts : list BlogPost) (s : list_state) :
  let loaded := set_blogPosts (VArr (map BlogPost_value posts)) s in
  filteredBlogPosts (set_selectedStatus "all" loaded)
    = Returned (VArr (map BlogPost_value posts)) ∧
  ∀ sel : post_status,
    let kept := filter (fun p => post_status_of p = sel) posts in
    filteredBlogPosts (set_selectedStatus (status_name sel) loaded)
      = Returned (VArr (map BlogPost_value kept)) ∧
    kept `sublist_of` posts ∧
    (∀ p, p ∈ kept ↔ p ∈ posts ∧ post_status_of p = sel).
Proof.
  simpl. split; [reflexivity |].
  intros sel. split; [| split].
  - unfold filteredBlogPosts. simpl.
    rewrite status_name_not_all. by rewrite filter_items_by_status.
  - apply sublist_filter.
  - intros p. rewrite list_elem_of_filter. tauto.
Qed.

(** C10. [truncateContent] returns a text that fits unchanged; a longer
    one is cut to its first [maxLength] characters, followed by "...",
    for every limit that is a length (not negative).  Without a second
    argument the limit is 100; the two sample calls give "hello" and
    "0123456789...". *)
Theorem truncateContent_spec (content : string) (maxLength : Z) :
  truncateContent_default content = truncateContent content 100 ∧
  ((Z.of_nat (String.length content) ≤ maxLength)%Z →
   truncateContent content maxLength = content) ∧
  ((0 ≤ maxLength < Z.of_nat (String.length content))%Z →
   ∃ head rest,
     content = head ++ rest ∧
     Z.of_nat (String.length head) = maxLength ∧
     truncateContent content maxLength = head ++ "...") ∧
  truncateContent "hello" 10 = "hello" ∧
  truncateContent "0123456789X" 10 = "0123456789...".
Proof.
  split; [reflexivity |]. split; [| split; [| split; reflexivity]].
  - intros Hfits. unfold truncateContent.
    by destruct (Z.leb_spec (Z.of_nat (String.length content)) maxLength); [| lia].
  - intros [Hpos Hlong]. unfold truncateContent.
    destruct (Z.leb_spec (Z.of_nat (String.length content)) maxLength); [lia |].
    unfold slice. simpl.
    destruct (Z.ltb_spec maxLength 0); [lia |].
    rewrite Z.min_l by lia. rewrite Z.min_l by lia.
    rewrite Z.sub_0_r, Z.max_l by lia. simpl.
    destruct (substring_prefix (Z.to_nat maxLength) content ltac:(lia))
      as (rest & Hs & Hlen).
    exists (substring 0 (Z.to_nat maxLength) content), rest.
    split; [exact Hs |]. split; [rewrite Hlen; lia | reflexivity].
Qed.

End BlogListFacts.

Section ProceedDelete.

Context {env : Environment}.

(** C3, as the code has it.  With a pending target, [proceedDelete]
    always ends with the deleting flag lowered and never rejects.  The
    dialog is closed and the target cleared when the DELETE call
    succeeds; when it fails the error is logged and the dialog, the
    target and the posts are left as they were. *)
Theorem proceedDelete_settles s :
  truthy (postToDelete s) = true →
  let deleted :=
    fetchData ("blogs/" ++ to_string (postToDelete s)) DELETE (list_api s) in
  let s' := snd (proceedDelete s) in
  fst (proceedDelete s) = Returned tt ∧
  isDeleting s' = false ∧
  match fst deleted with
  | Returned _ =>
      showConfirmModal s' = false ∧ postToDelete s' = VNull
  | Thrown e =>
      showConfirmModal s' = showConfirmModal s ∧
      postToDelete s' = postToDelete s ∧
      blogPosts s' = blogPosts s ∧
      console_error s' =
        (console_error s ++ [("Failed to delete the post:", e)])%list
  end.
Proof.
  intros Hpending. simpl.
  unfold proceedDelete, proceedDelete_try, list_await, list_api_call.
  unfold_M. simpl. rewrite Hpending. simpl.
  destruct (fetchData _ DELETE (list_api s)) as [[response | e] a']; simpl;
    [| by repeat split].
  match goal with
  | |- context [fetchBlogPosts ?st] =>
      pose proof (fetchBlogPosts_resolves st) as Hload;
      destruct (fetchBlogPosts st) as [[[] | e] s2]
  end; simpl in *; [by repeat split | discriminate Hload].
Qed.

End ProceedDelete.

Lemma proceedDelete_settles_witness :
  isDeleting (snd (proceedDelete (env := Sample.down) Sample.confirming)) = false.
Proof.
  exact (proj1 (proj2 (proceedDelete_settles (env := Sample.down) Sample.confirming
                         eq_refl))).
Defined.

(** C3 as stated fails: with the dialog open for post 5 and the server
    answering 500, the DELETE call rejects, and afterwards the dialog is
    still shown and post 5 is still the pending target. *)
Lemma proceedDelete_failure_counterexample :
  let before := Sample.confirming in
  let after := snd (proceedDelete (env := Sample.down) before) in
  truthy (postToDelete before) = true ∧
  fst (fetchData (env := Sample.down) "blogs/5" DELETE (list_api before))
    = Thrown (Error "Internal Server Error") ∧
  showConfirmModal after = true ∧
  postToDelete after = VNum 5 ∧
  ¬ (showConfirmModal after = false ∧ postToDelete after = VNull).
Proof.
  vm_compute. repeat split; try reflexivity. intros [H _]. discriminate H.
Qed.


Lemma filteredBlogPosts_spec_witness :
  Sample.post6 ∈ filter (fun p => post_status_of p = unpublished)
                   [Sample.post5; Sample.post6].
Proof.
  destruct (filteredBlogPosts_spec [Sample.post5; Sample.post6] list_setup)
    as [_ Hsel].
  destruct (Hsel unpublished) as (_ & _ & Hin).
  apply Hin. split; [| reflexivity].
  apply list_elem_of_In. simpl. auto.
Defined.

Lemma truncateContent_spec_witness :
  truncateContent "hello" 10 = "hello" ∧
  ∃ head rest,
    "0123456789X" = head ++ rest ∧
    Z.of_nat (String.length head) = 10%Z ∧
    truncateContent "0123456789X" 10 = head ++ "...".
Proof.
  split.
  - apply (proj1 (proj2 (truncateContent_spec "hello" 10))). simpl. lia.
  - apply (proj1 (proj2 (proj2 (truncateContent_spec "0123456789X" 10)))).
    simpl. lia.
Defined.

(** ** The blog post form component *)

(** Reading a property of a truthy value does not throw, and agrees with
    the optional-chaining read. *)
Lemma get_prop_truthy (v : value) (k : string) :
  truthy v = true → get_prop v k = Returned (get_prop_opt v k).
Proof. destruct v; simpl; intros H; first [discriminate H | reflexivity]. Qed.

(** On a decoded list of well-typed authors [find] returns the first author
    of the given name. *)
Lemma find_item_by_name (name : string) (l : list Author) :
  find_item
    (fun author =>
       match get_prop author "name" with
       | Thrown e => Thrown e
       | Returned n => Returned (strict_eq n (VStr name))
       end) (map Author_value l)
  = Returned (match List.find (fun a => String.eqb (author_name a) name) l with
              | Some a => Author_value a
              | None => VUndef
              end).
Proof.
  induction l as [| a l IH]; [reflexivity |].
  cbn [map find_item List.find].
  cbn [Author_value get_prop assoc String.eqb Ascii.eqb Bool.eqb strict_eq].
  destruct (String.eqb (author_name a) name); [reflexivity | exact IH].
Qed.

Section BlogPostFormFacts.

Context {env : Environment}.

(** The author id that [submitForm] resolves, on a well-typed author
    list and a current-author string: the id of the first author of that
    name, else the [id] of the draft's author. *)
Lemma resolve_authorId_typed s (l : list Author) (name : string) :
  authors s = VArr (map Author_value l) →
  currentAuthor s = VStr name →
  resolve_authorId s =
    match List.find (fun a => String.eqb (author_name a) name) l with
    | Some a => Returned (VNum (author_id a))
    | None => get_prop (form_author (form s)) "id"
    end.
Proof.
  intros Ha Hc. unfold resolve_authorId, find_selectedAuthor.
  rewrite Ha, Hc. simpl. rewrite find_item_by_name.
  destruct (List.find _ l) as [a |]; reflexivity.
Qed.

(** C7. However [submitForm] goes -- sent and answered, stopped by the
    author check, or failed -- it ends with [isSubmitting] lowered and no
    cache entry for "blogs". *)
Theorem submitForm_always_cleans_up s :
  let s' := snd (submitForm s) in
  isSubmitting s' = false ∧ cache (form_api s') !! "blogs" = None.
Proof.
  unfold submitForm, form_api_call. unfold_M. simpl.
  destruct (submitForm_try _) as [[[] | e] s1]; simpl.
  - split; [reflexivity | apply lookup_delete_eq].
  - destruct (submitForm_catch e s1) as [r s2]. simpl.
    split; [reflexivity | apply lookup_delete_eq].
Qed.

(** The first two statements of [submitForm] do not touch what the
    [try] block reads. *)
Lemma resolve_authorId_entering s :
  resolve_authorId (set_isSubmitting true (set_errors [] s)) = resolve_authorId s.
Proof. reflexivity. Qed.

(** C2. On the edit page, once the post's GET response sits in the cache
    under the key the update is addressed to, [submitForm] gets its PUT
    answered by [fetchData] from the cache: the cached response comes
    back and the client instance is untouched, so no request is sent and
    the payload goes nowhere; [submitForm] then resolves, navigates to
    "/" and shows no error. *)
Theorem submitForm_update_answered_from_cache s cached authorId :
  isEditMode s = true →
  cache (form_api s) !! ("blogs/" ++ to_string (get_prop_opt (blogPost s) "id"))
    = Some cached →
  resolve_authorId s = Returned authorId →
  truthy authorId = true →
  let key := "blogs/" ++ to_string (get_prop_opt (blogPost s) "id") in
  let payload := payload_of (form s) authorId in
  let s' := snd (submitForm s) in
  fetchData key (PUT payload) (form_api s) = (Returned cached, form_api s) ∧
  fst (submitForm s) = Returned tt ∧
  requests (form_api s') = requests (form_api s) ∧
  form_navigations s' = (form_navigations s ++ ["/"])%list ∧
  errors s' = [] ∧
  isSubmitting s' = false.
Proof.
  intros Hedit Hcached Hauthor Htruthy. simpl.
  pose proof (fetchData_hit _ (PUT (payload_of (form s) authorId)) _ _ Hcached)
    as Hhit.
  split; [exact Hhit |].
  unfold submitForm, submitForm_try, form_api_call. unfold_M. simpl.
  rewrite resolve_authorId_entering, Hauthor. simpl. rewrite Htruthy. simpl.
  unfold isEditMode in *. simpl. rewrite Hedit. simpl.
  rewrite Hhit. simpl. by repeat split.
Qed.

(** What [fetchBlogPost] leaves behind when the post arrives: the
    response is the loaded post and is cached under the route's key. *)
Lemma fetchBlogPost_caches_post s (rid : string) response :
  route_params_id s = VStr rid →
  truthy (VStr rid) = true →
  fst (fetchData ("blogs/" ++ rid) no_options (form_api s)) = Returned response →
  truthy response = true →
  let s' := snd (fetchBlogPost s) in
  blogPost s' = response ∧
  cache (form_api s') !! ("blogs/" ++ rid) = Some response ∧
  currentAuthor s' = js_or (get_prop_opt response "author") (VStr "").
Proof.
  intros Hroute Hrid Hfetch Hresp. simpl.
  pose proof (fetchData_returned _ _ _ _ Hfetch) as Hcache.
  unfold fetchBlogPost, assign_blogPost, on_blogPost, form_api_call.
  unfold_M. simpl. rewrite Hroute. simpl. simpl in Hrid. rewrite Hrid. simpl.
  destruct (fetchData ("blogs/" ++ rid) no_options (form_api s))
    as [[r | e] a'] eqn:Hcall; simpl in Hfetch; [| discriminate Hfetch].
  injection Hfetch as ->. simpl in Hcache. simpl.
  assert (Hor : js_or response VNull = response)
    by (unfold js_or; by rewrite Hresp).
  rewrite !Hor, Hresp, !(get_prop_truthy _ _ Hresp).
  destruct (same_as_held _ _ response); simpl; auto.
Qed.

(** The author check: a falsy resolved id records the one message and
    sends nothing. *)
Lemma submitForm_author_required s authorId :
  resolve_authorId s = Returned authorId →
  truthy authorId = false →
  let s' := snd (submitForm s) in
  errors s' = [VStr "Author is required."] ∧
  requests (form_api s') = requests (form_api s) ∧
  form_navigations s' = form_navigations s.
Proof.
  intros Hauthor Hfalsy. simpl.
  unfold submitForm, submitForm_try, form_api_call. unfold_M. simpl.
  rewrite resolve_authorId_entering, Hauthor. simpl. rewrite Hfalsy. simpl.
  by repeat split.
Qed.

(** The [catch] block only rewrites the error list. *)
Lemma submitForm_catch_frame e s :
  fst (submitForm_catch e s) = Returned tt ∧
  form_api (snd (submitForm_catch e s)) = form_api s ∧
  form_navigations (snd (submitForm_catch e s)) = form_navigations s.
Proof.
  unfold submitForm_catch.
  destruct (get_prop_opt (get_prop_opt (err_response e) "data") "errors");
    try (by repeat split).
  destruct (truthy _ && truthy _); by repeat split.
Qed.

(** With a truthy author id and no cache entry under the target key, the
    payload does go out: one request, PUT to [blogs/{id}] on the edit
    page and POST to [blogs] otherwise. *)
Lemma submitForm_sends_when_not_cached s authorId :
  resolve_authorId s = Returned authorId →
  truthy authorId = true →
  let payload := payload_of (form s) authorId in
  let key := "blogs/" ++ to_string (get_prop_opt (blogPost s) "id") in
  let s' := snd (submitForm s) in
  (isEditMode s = true → cache (form_api s) !! key = None →
   requests (form_api s') =
     (requests (form_api s) ++ [request_for key (PUT payload)])%list) ∧
  (isEditMode s = false → cache (form_api s) !! "blogs" = None →
   requests (form_api s') =
     (requests (form_api s) ++ [request_for "blogs" (POST payload)])%list).
Proof.
  intros Hauthor Htruthy. simpl.
  split; intros Hmode Hmiss;
    unfold submitForm, submitForm_try, form_api_call; unfold_M; simpl;
    rewrite resolve_authorId_entering, Hauthor; simpl; rewrite Htruthy; simpl;
    unfold isEditMode in *; simpl; rewrite Hmode; simpl;
    rewrite (fetchData_miss _ _ _ Hmiss); simpl;
    (destruct (net _ _) as [e | resp]; simpl;
     [| destruct (resp_ok resp); simpl;
        [destruct (resp_json resp) as [d | e]; simpl |]]);
    try reflexivity;
    match goal with
    | |- context [submitForm_catch ?err ?st] =>
        pose proof (submitForm_catch_frame err st) as (_ & Hapi & _);
        destruct (submitForm_catch err st) as [r s2]; simpl in *;
        rewrite Hapi; reflexivity
    end.
Qed.

End BlogPostFormFacts.

Section FurtherFacts.

Context {env : Environment}.

(** On any array without [null] entries the filter callback does not
    throw, and the computed list is the filter of the stored one. *)
Lemma filter_items_by_status_untyped (sel : string) (items : list value) :
  Forall (fun v => v ≠ VNull ∧ v ≠ VUndef) items →
  filter_items
    (fun post =>
       match get_prop post "status" with
       | Thrown e => Thrown e
       | Returned st => Returned (strict_eq st (VStr sel))
       end) items
  = Returned (List.filter
                (fun v => strict_eq (get_prop_opt v "status") (VStr sel)) items).
Proof.
  induction 1 as [| v items [Hnull Hundef] _ IH]; [reflexivity |].
  cbn [filter_items List.filter]. rewrite IH.
  destruct v; try congruence; reflexivity.
Qed.


(** The edit page as [fetchBlogPost] builds it: when the loaded post's id
    prints as the route parameter, the key of the update is the key of the
    load, and [submitForm] with a resolved author sends nothing. *)
Lemma submitForm_after_fetchBlogPost s (rid : string) response authorId :
  route_params_id s = VStr rid →
  truthy (VStr rid) = true →
  fst (fetchData ("blogs/" ++ rid) no_options (form_api s)) = Returned response →
  truthy (get_prop_opt response "id") = true →
  to_string (get_prop_opt response "id") = rid →
  let loaded := snd (fetchBlogPost s) in
  resolve_authorId loaded = Returned authorId →
  truthy authorId = true →
  isEditMode loaded = true ∧
  requests (form_api (snd (submitForm loaded))) = requests (form_api loaded) ∧
  form_navigations (snd (submitForm loaded)) = (form_navigations loaded ++ ["/"])%list.
Proof.
  intros Hroute Hrid Hfetch Hid Hkey loaded Hauthor Htruthy.
  assert (Hresp : truthy response = true) by (by destruct response).
  destruct (fetchBlogPost_caches_post s rid response Hroute Hrid Hfetch Hresp)
    as (Hpost & Hcache & _).
  fold loaded in Hpost, Hcache. clearbody loaded.
  assert (Hedit : isEditMode loaded = true) by (unfold isEditMode; by rewrite Hpost).
  split; [exact Hedit |].
  rewrite <- Hkey in Hcache. rewrite <- Hpost in Hcache at 1.
  pose proof (fetchData_hit _ (PUT (payload_of (form loaded) authorId)) _ _ Hcache)
    as Hhit.
  unfold submitForm, submitForm_try, form_api_call. unfold_M. simpl.
  rewrite resolve_authorId_entering, Hauthor. simpl. rewrite Htruthy. simpl.
  unfold isEditMode in *. simpl. rewrite Hedit. simpl.
  rewrite Hhit. simpl. by split.
Qed.

End FurtherFacts.

Lemma submitForm_update_answered_from_cache_witness :
  requests (form_api (snd (submitForm (env := Sample.up) Sample.edit_page)))
  = requests (form_api Sample.edit_page).
Proof.
  exact (proj1 (proj2 (proj2
           (submitForm_update_answered_from_cache (env := Sample.up) Sample.edit_page
              (BlogPost_value Sample.post5) (VNum 1)
              eq_refl eq_refl eq_refl eq_refl)))).
Defined.

(** C4, run on the edit page of post 5 once the post and the authors have
    been loaded: the page is in edit mode and the author resolves to Ann's
    id 1, so the claim has [submitForm] send a PUT to [blogs/5].  The two
    GET requests of the page load remain the only requests of the
    instance, and [submitForm] navigates to "/" with no error. *)
Theorem submitForm_edit_page_sends_no_PUT :
  let s := Sample.edit_page in
  let s' := snd (submitForm (env := Sample.up) s) in
  isEditMode s = true ∧
  resolve_authorId s = Returned (VNum 1) ∧
  map (fun r => (init_method (req_init r), req_url r)) (requests (form_api s'))
    = [(None, "https://api.example.test/blogs/5");
       (None, "https://api.example.test/authors")] ∧
  requests (form_api s') = requests (form_api s) ∧
  form_navigations s' = ["/"] ∧
  errors s' = [].
Proof. vm_compute. by repeat split. Qed.

(** ** The scenarios listed as testable properties *)

(** One author Ann, "Ann" as current author, a blank draft, no loaded post:
    the author id resolves to 1 and one POST to [blogs] carries it. *)
Example submitForm_posts_with_resolved_author :
  let s := set_currentAuthor (VStr "Ann") Sample.create_page in
  let s' := snd (submitForm (env := Sample.up) s) in
  get_prop (form_author (form s)) "id" = Returned (VNum 0) ∧
  resolve_authorId s = Returned (VNum 1) ∧
  requests (form_api s') =
    (requests (form_api s) ++
       [request_for (env := Sample.up) "blogs"
          (POST (VObj [("title", VStr ""); ("content", VStr "");
                       ("author_id", VNum 1); ("status", VStr "published")]))])%list.
Proof. vm_compute. by repeat split. Qed.

(** No author of the current name and a blank draft: the one message, and
    nothing is sent. *)
Example submitForm_requires_author :
  let s := Sample.create_page in
  let s' := snd (submitForm (env := Sample.up) s) in
  errors s' = [VStr "Author is required."] ∧
  requests (form_api s') = requests (form_api s) ∧
  form_navigations s' = [].
Proof. vm_compute. by repeat split. Qed.

(** [proceedDelete] without a pending target does nothing at all. *)
Example proceedDelete_without_target :
  proceedDelete (env := Sample.up) Sample.list_page = (Returned tt, Sample.list_page).
Proof. vm_compute. reflexivity. Qed.

(** A successful DELETE is followed by a new request for "blogs", although
    "blogs" was cached, and the dialog is closed. *)
Example proceedDelete_reloads_the_list :
  let s := snd (confirmDelete 6 Sample.list_page) in
  let s' := snd (proceedDelete (env := Sample.up) s) in
  is_Some (cache (list_api s) !! "blogs") ∧
  map (fun r => (init_method (req_init r), req_url r)) (requests (list_api s'))
    = [(None, "https://api.example.test/blogs");
       (Some "DELETE", "https://api.example.test/blogs/6");
       (None, "https://api.example.test/blogs")] ∧
  showConfirmModal s' = false ∧
  postToDelete s' = VNull ∧
  isDeleting s' = false.
Proof. vm_compute. repeat split; eauto. Qed.

(** A negative limit is not a length: [slice] then counts from the end. *)
Example truncateContent_negative_limit : truncateContent "hello" (-2) = "hel...".
Proof. reflexivity. Qed.

(** * Further properties of the code *)

(** ** The API client *)

Section UseApiMore.

Context {env : Environment}.

(** The log after one call is the log before, followed by the request of
    that call when it missed the cache. *)
Lemma fetchData_requests endpoint options a :
  requests (snd (fetchData endpoint options a)) =
    match cache a !! endpoint with
    | Some _ => requests a
    | None => (requests a ++ [request_for endpoint options])%list
    end.
Proof.
  destruct (cache a !! endpoint) eqn:Hc.
  - by rewrite (fetchData_hit _ _ _ _ Hc).
  - rewrite (fetchData_miss _ _ _ Hc). simpl.
    destruct (net _ _) as [e | resp]; [reflexivity |].
    destruct (resp_ok resp); [| reflexivity].
    destruct (resp_json resp); reflexivity.
Qed.

(** A call that throws has missed the cache and stored nothing. *)
Lemma fetchData_thrown endpoint options a e :
  fst (fetchData endpoint options a) = Thrown e →
  cache a !! endpoint = None ∧
  snd (fetchData endpoint options a) = log_request (request_for endpoint options) a.
Proof.
  destruct (cache a !! endpoint) eqn:Hc.
  - rewrite (fetchData_hit _ _ _ _ Hc). discriminate.
  - rewrite (fetchData_miss _ _ _ Hc). simpl.
    destruct (net _ _) as [e' | resp]; simpl; [auto |].
    destruct (resp_ok resp); simpl; [| auto].
    destruct (resp_json resp); simpl; [discriminate | auto].
Qed.

(** X1. The request of a cache miss goes to [apiUrl/endpoint] with the
    caller's method and body, and with the caller's headers laid over the
    two defaults: a header the caller gives is sent as given, otherwise
    [Content-Type] is [application/json], [x-key] is the API key, and no
    other header is sent. *)
Theorem fetchData_request_shape endpoint options a :
  cache a !! endpoint = None →
  ∃ r,
    requests (snd (fetchData endpoint options a)) = (requests a ++ [r])%list ∧
    req_url r = apiUrl ++ "/" ++ endpoint ∧
    init_method (req_init r) = init_method options ∧
    init_body (req_init r) = init_body options ∧
    ∀ name,
      init_headers (req_init r) !! name =
        match init_headers options !! name with
        | Some given => Some given
        | None =>
            if String.eqb name "Content-Type" then Some "application/json"
            else if String.eqb name "x-key" then Some apiKey
            else None
        end.
Proof.
  intros Hmiss. exists (request_for endpoint options).
  split; [by rewrite fetchData_requests, Hmiss |].
  repeat split. intros name. simpl. unfold merged_headers.
  rewrite lookup_union.
  destruct (init_headers options !! name) as [given |]; simpl.
  - by destruct (_ !! name).
  - rewrite lookup_insert.
    destruct (String.eqb_spec name "Content-Type") as [-> | Hct].
    + by rewrite decide_True.
    + rewrite decide_False by congruence.
      rewrite lookup_insert.
      destruct (String.eqb_spec name "x-key") as [-> | Hk].
      * by rewrite decide_True.
      * rewrite decide_False by congruence. by rewrite lookup_empty.
Qed.

(** X2. A call that fails, for whatever reason, has sent exactly one
    request and leaves the cache as it was, without an entry for the
    endpoint: the same call made again goes to the server again. *)
Theorem fetchData_failure_not_cached endpoint options a e :
  fst (fetchData endpoint options a) = Thrown e →
  let failed := snd (fetchData endpoint options a) in
  cache failed = cache a ∧
  cache failed !! endpoint = None ∧
  requests failed = (requests a ++ [request_for endpoint options])%list ∧
  requests (snd (fetchData endpoint options failed)) =
    (requests a ++ [request_for endpoint options; request_for endpoint options])%list.
Proof.
  intros Hthrown. destruct (fetchData_thrown _ _ _ _ Hthrown) as [Hmiss ->].
  simpl. repeat split; [exact Hmiss |].
  rewrite fetchData_requests. simpl. rewrite Hmiss.
  by rewrite <- app_assoc.
Qed.

(** X3. A call never removes or replaces a cache entry, and touches no
    entry but the one of its endpoint. *)
Theorem fetchData_only_adds_its_entry endpoint options a :
  let after := snd (fetchData endpoint options a) in
  cache a ⊆ cache after ∧
  ∀ other, other ≠ endpoint → cache after !! other = cache a !! other.
Proof.
  simpl. destruct (cache a !! endpoint) eqn:Hc.
  - rewrite (fetchData_hit _ _ _ _ Hc). simpl. by split.
  - rewrite (fetchData_miss _ _ _ Hc). simpl.
    destruct (net _ _) as [e | resp]; simpl; [by split |].
    destruct (resp_ok resp); simpl; [| by split].
    destruct (resp_json resp); simpl; [| by split].
    split; [by apply insert_subseteq |].
    intros other Hne. by rewrite lookup_insert_ne.
Qed.

Lemma run_call_requests c a :
  ∃ new,
    requests (run_call c a) = (requests a ++ new)%list ∧
    (length new ≤ match c with CallFetchData _ _ => 1 | CallClearCache _ => 0 end)%nat.
Proof.
  destruct c as [e o | e]; simpl.
  - rewrite fetchData_requests. destruct (cache a !! e).
    + exists []. by rewrite app_nil_r; auto.
    + eexists. split; [reflexivity | simpl; lia].
  - exists []. by rewrite app_nil_r.
Qed.

(** X4. Over any history of calls the log only grows at its end, and by
    at most one request for each [fetchData] of the history. *)
Theorem run_calls_log_append_only cs a :
  requests a `prefix_of` requests (run_calls cs a) ∧
  (length (requests (run_calls cs a)) ≤
     length (requests a) +
     length (List.filter (fun c => match c with
                                   | CallFetchData _ _ => true
                                   | CallClearCache _ => false
                                   end) cs))%nat.
Proof.
  revert a. induction cs as [| c cs IH]; intros a.
  - simpl. split; [reflexivity | lia].
  - change (run_calls (c :: cs) a) with (run_calls cs (run_call c a)).
    destruct (IH (run_call c a)) as [Hpre Hlen].
    destruct (run_call_requests c a) as (new & Hnew & Hone).
    rewrite Hnew in Hpre, Hlen. rewrite length_app in Hlen.
    split.
    + etrans; [| exact Hpre]. by apply prefix_app_r.
    + destruct c; simpl in *; lia.
Qed.

(** X5. While an endpoint is cached and not cleared, the calls of
    [fetchData] for it leave no trace: the history with those calls taken
    out ends in the same state. *)
Theorem run_calls_skip_cached endpoint v cs a :
  cache a !! endpoint = Some v →
  forallb (fun c => negb (clears endpoint c)) cs = true →
  run_calls cs a =
    run_calls (List.filter (fun c => match c with
                                     | CallFetchData e _ => negb (String.eqb e endpoint)
                                     | CallClearCache _ => true
                                     end) cs) a.
Proof.
  revert a. induction cs as [| c cs IH]; intros a Hc Hcs; [reflexivity |].
  simpl in Hcs. apply andb_true_iff in Hcs as [Hclear Hcs].
  apply negb_true_iff in Hclear.
  change (run_calls (c :: cs) a) with (run_calls cs (run_call c a)).
  destruct c as [e o | e]; cbn [List.filter].
  - destruct (String.eqb_spec e endpoint) as [-> | Hne]; cbn [negb].
    + simpl. rewrite (fetchData_hit _ _ _ _ Hc). simpl. by apply IH.
    + change (run_calls (CallFetchData e o :: ?l) a)
        with (run_calls l (run_call (CallFetchData e o) a)).
      apply IH; [| exact Hcs]. by apply run_call_keeps_entry.
  - change (run_calls (CallClearCache e :: ?l) a)
      with (run_calls l (run_call (CallClearCache e) a)).
    apply IH; [| exact Hcs]. by apply run_call_keeps_entry.
Qed.

Abbreviation justified a :=
  (∀ endpoint v,
     cache a !! endpoint = Some v →
     ∃ earlier options later resp,
       requests a = (earlier ++ request_for endpoint options :: later)%list ∧
       net earlier (request_for endpoint options) = Arrived resp ∧
       resp_ok resp = true ∧
       resp_json resp = Returned v).

Lemma justified_logged r a : justified a → justified (log_request r a).
Proof.
  intros Hinv endpoint v Hv. simpl in Hv.
  destruct (Hinv endpoint v Hv) as (earlier & options & later & resp & Hlog & Hrest).
  exists earlier, options, (later ++ [r])%list, resp.
  split; [| exact Hrest]. simpl. rewrite Hlog. by rewrite <- app_assoc.
Qed.

Lemma run_call_justified c a : justified a → justified (run_call c a).
Proof.
  intros Hinv. destruct c as [e o | e]; simpl.
  - destruct (cache a !! e) eqn:Hc.
    + by rewrite (fetchData_hit _ _ _ _ Hc).
    + rewrite (fetchData_miss _ _ _ Hc). simpl.
      destruct (net (requests a) (request_for e o)) as [err | resp] eqn:Hnet; simpl;
        [by apply justified_logged |].
      destruct (resp_ok resp) eqn:Hok; simpl; [| by apply justified_logged].
      destruct (resp_json resp) as [data | err] eqn:Hjson; simpl;
        [| by apply justified_logged].
      intros endpoint v Hv. simpl in Hv.
      destruct (decide (e = endpoint)) as [<- | Hne].
      * rewrite lookup_insert_eq in Hv. injection Hv as <-.
        exists (requests a), o, [], resp. by repeat split.
      * rewrite lookup_insert_ne in Hv by exact Hne.
        destruct (Hinv endpoint v Hv)
          as (earlier & options & later & resp' & Hlog & Hrest).
        exists earlier, options, (later ++ [request_for e o])%list, resp'.
        split; [| exact Hrest]. simpl. rewrite Hlog. by rewrite <- app_assoc.
  - intros endpoint v Hv. simpl in Hv.
    apply lookup_delete_Some in Hv as [_ Hv]. by apply Hinv.
Qed.

(** X6. Whatever the history of a fresh instance, every value in its
    cache is the decoded body of a successful reply to a request the
    instance has sent for that very endpoint: nothing a failed or an
    undecodable reply carried is ever served from the cache. *)
Theorem cache_entries_justified cs endpoint v :
  cache (run_calls cs new_api) !! endpoint = Some v →
  ∃ earlier options later resp,
    requests (run_calls cs new_api) =
      (earlier ++ request_for endpoint options :: later)%list ∧
    net earlier (request_for endpoint options) = Arrived resp ∧
    resp_ok resp = true ∧
    resp_json resp = Returned v.
Proof.
  assert (Hall : ∀ a, justified a → justified (run_calls cs a)).
  { induction cs as [| c cs IH]; intros a Ha; [exact Ha |].
    change (run_calls (c :: cs) a) with (run_calls cs (run_call c a)).
    apply IH. by apply run_call_justified. }
  apply Hall. intros e w Hw. simpl in Hw. by rewrite lookup_empty in Hw.
Qed.

End UseApiMore.

(** ** The blog list component *)

Lemma blogs_item_key (x : string) : "blogs/" ++ x ≠ "blogs".
Proof. unfold String.append. discriminate. Qed.

Lemma length_string_app (a b : string) :
  String.length (a ++ b) = (String.length a + String.length b)%nat.
Proof.
  induction a as [| c a IH]; [reflexivity |].
  change (String c a ++ b) with (String c (a ++ b)). simpl. by rewrite IH.
Qed.

(** Cutting a text after its first part gives the first part. *)
Lemma substring_app_exact (a b : string) :
  substring 0 (String.length a) (a ++ b) = a.
Proof.
  induction a as [| c a IH]; [by destruct b |].
  change (String c a ++ b) with (String c (a ++ b)). simpl. by rewrite IH.
Qed.

Lemma filter_items_returned pred items kept :
  filter_items pred items = Returned kept →
  Forall (fun v => ∃ keep, pred v = Returned keep) items.
Proof.
  revert kept. induction items as [| x items IH]; intros kept H; [constructor |].
  simpl in H. destruct (pred x) as [keep |] eqn:Hx; [| discriminate H].
  destruct (filter_items pred items) as [rest |]; [| discriminate H].
  constructor; [by exists keep | by apply (IH rest)].
Qed.

Section BlogListMore.

Context {env : Environment}.

(** What a load does to the client instance and to the stored posts. *)
Lemma fetchBlogPosts_effect s :
  let fetched := fetchData "blogs" no_options (list_api s) in
  let s' := snd (fetchBlogPosts s) in
  list_api s' = snd fetched ∧
  blogPosts s' =
    match fst fetched with
    | Returned response =>
        match get_prop response "data" with
        | Returned data => js_or data (VArr [])
        | Thrown _ => blogPosts s
        end
    | Thrown _ => blogPosts s
    end.
Proof.
  simpl. unfold fetchBlogPosts, fetchBlogPosts_try, list_await, list_api_call.
  unfold_M. simpl.
  destruct (fetchData "blogs" no_options (list_api s)) as [[response | e] a']; simpl;
    [| by split].
  destruct (get_prop response "data"); by split.
Qed.

(** X7. Opening the confirmation dialog records the target and shows the
    dialog; cancelling hides it and forgets the target.  Neither sends
    anything, and cancelling right after opening brings an idle page back
    to exactly the state it was in. *)
Theorem confirmDelete_then_cancelDelete id s :
  let opened := snd (confirmDelete id s) in
  let cancelled := snd (cancelDelete opened) in
  showConfirmModal opened = true ∧
  postToDelete opened = VNum id ∧
  list_api opened = list_api s ∧
  showConfirmModal cancelled = false ∧
  postToDelete cancelled = VNull ∧
  (showConfirmModal s = false → postToDelete s = VNull → cancelled = s).
Proof.
  simpl. unfold confirmDelete, cancelDelete. unfold_M. simpl.
  repeat split. intros Hshown Htarget. destruct s; simpl in *. by subst.
Qed.

(** X8. Without a truthy pending target [proceedDelete] does nothing at
    all.  The target 0 is such a target: for a post whose id is 0 the
    dialog opens, and confirming sends nothing and leaves it open. *)
Theorem proceedDelete_needs_truthy_target s :
  (truthy (postToDelete s) = false → proceedDelete s = (Returned tt, s)) ∧
  let opened := snd (confirmDelete 0 s) in
  proceedDelete opened = (Returned tt, opened) ∧
  showConfirmModal opened = true.
Proof.
  split.
  - intros Hfalsy. unfold proceedDelete. unfold_M. by rewrite Hfalsy.
  - by split.
Qed.

(** X9. A DELETE that reaches the server and is answered with a decodable
    success is followed by exactly one request for "blogs", whatever the
    cache held for "blogs" before; the reply of the DELETE stays in the
    cache under the post's key, and the dialog is closed. *)
Theorem proceedDelete_success_reloads s resp data :
  truthy (postToDelete s) = true →
  let key := "blogs/" ++ to_string (postToDelete s) in
  cache (list_api s) !! key = None →
  net (requests (list_api s)) (request_for key DELETE) = Arrived resp →
  resp_ok resp = true →
  resp_json resp = Returned data →
  let s' := snd (proceedDelete s) in
  requests (list_api s') =
    (requests (list_api s) ++
       [request_for key DELETE; request_for "blogs" no_options])%list ∧
  cache (list_api s') !! key = Some data ∧
  showConfirmModal s' = false ∧
  postToDelete s' = VNull.
Proof.
  intros Hpending key Hmiss Hnet Hok Hjson. simpl.
  unfold proceedDelete, proceedDelete_try, list_await, list_api_call.
  unfold_M. simpl. rewrite Hpending. simpl. fold key.
  rewrite (fetchData_miss _ _ _ Hmiss). simpl. rewrite Hnet, Hok, Hjson. simpl.
  match goal with
  | |- context [fetchBlogPosts ?st] =>
      pose proof (fetchBlogPosts_resolves st) as Hload;
      destruct (fetchBlogPosts_effect st) as [Hapi _];
      destruct (fetchBlogPosts st) as [[[] | e] s2]
  end; simpl in *; [| discriminate Hload].
  rewrite Hapi. split; [| split; [| by split]].
  - rewrite fetchData_requests. simpl. rewrite lookup_delete_eq.
    by rewrite <- app_assoc.
  - apply fetchData_keeps_entry. simpl.
    rewrite lookup_delete_ne by (intros H; by apply (blogs_item_key _ (eq_sym H))).
    apply lookup_insert_eq.
Qed.

(** X10. When the DELETE call fails, its one request is all that was
    sent: the list is not reloaded and the cache, with its entry for
    "blogs" if any, is what it was. *)
Theorem proceedDelete_failure_keeps_cache s e :
  truthy (postToDelete s) = true →
  let key := "blogs/" ++ to_string (postToDelete s) in
  fst (fetchData key DELETE (list_api s)) = Thrown e →
  let s' := snd (proceedDelete s) in
  requests (list_api s') = (requests (list_api s) ++ [request_for key DELETE])%list ∧
  cache (list_api s') = cache (list_api s) ∧
  blogPosts s' = blogPosts s ∧
  isLoading s' = isLoading s.
Proof.
  intros Hpending key Hthrown. simpl.
  destruct (fetchData_thrown _ _ _ _ Hthrown) as [_ Hstate].
  unfold proceedDelete, proceedDelete_try, list_await, list_api_call.
  unfold_M. simpl. rewrite Hpending. simpl. fold key.
  destruct (fetchData key DELETE (list_api s)) as [[response | e'] a'];
    simpl in *; [discriminate Hthrown |].
  by subst a'.
Qed.

(** X11. When the cache already holds an entry under the post's key, the
    left-over of an earlier delete of that id, no DELETE is sent: the one
    request is the reload of "blogs", and the dialog closes as after a
    delete. *)
Theorem proceedDelete_answered_from_cache s cached :
  truthy (postToDelete s) = true →
  let key := "blogs/" ++ to_string (postToDelete s) in
  cache (list_api s) !! key = Some cached →
  let s' := snd (proceedDelete s) in
  requests (list_api s') =
    (requests (list_api s) ++ [request_for "blogs" no_options])%list ∧
  showConfirmModal s' = false ∧
  postToDelete s' = VNull.
Proof.
  intros Hpending key Hhit. simpl.
  unfold proceedDelete, proceedDelete_try, list_await, list_api_call.
  unfold_M. simpl. rewrite Hpending. simpl. fold key.
  rewrite (fetchData_hit _ _ _ _ Hhit). simpl.
  match goal with
  | |- context [fetchBlogPosts ?st] =>
      pose proof (fetchBlogPosts_resolves st) as Hload;
      destruct (fetchBlogPosts_effect st) as [Hapi _];
      destruct (fetchBlogPosts st) as [[[] | e] s2]
  end; simpl in *; [| discriminate Hload].
  rewrite Hapi. split; [| by split].
  rewrite fetchData_requests. simpl. by rewrite lookup_delete_eq.
Qed.

End BlogListMore.

Section BlogListHistory.

Context {env : Environment}.




(** X13. The computed list can be read exactly when the filter is "all",
    or the stored posts are an array with no [null] entry; in every other
    case reading it throws. *)
Theorem filteredBlogPosts_returns_iff s :
  (∃ view, filteredBlogPosts s = Returned view) ↔
  selectedStatus s = "all" ∨
  ∃ items, blogPosts s = VArr items ∧ Forall (fun v => v ≠ VNull ∧ v ≠ VUndef) items.
Proof.
  unfold filteredBlogPosts.
  destruct (String.eqb_spec (selectedStatus s) "all") as [Hall | Hother].
  - split; [by left | eauto].
  - split.
    + intros [view Hview]. right.
      destruct (blogPosts s) as [| | | | | items |]; simpl in Hview;
        try discriminate Hview.
      exists items. split; [reflexivity |].
      destruct (filter_items _ items) as [kept |] eqn:Hkept; [| discriminate Hview].
      apply filter_items_returned in Hkept.
      eapply Forall_impl; [exact Hkept |].
      intros v [keep Hv]. simpl in Hv.
      by destruct v; simpl in Hv.
    + intros [Hall | (items & -> & Hitems)]; [by destruct Hother |].
      simpl. rewrite (filter_items_by_status_untyped _ _ Hitems). eauto.
Qed.

(** X14. On decoded well-typed posts the views for "published" and
    "unpublished" split the stored list: each post is in exactly one of
    them.  A filter that is neither a status nor "all" gives the empty
    list. *)
Theorem filteredBlogPosts_partition (posts : list BlogPost) (s : list_state) :
  let loaded := set_blogPosts (VArr (map BlogPost_value posts)) s in
  (∃ pub unpub,
     filteredBlogPosts (set_selectedStatus "published" loaded)
       = Returned (VArr (map BlogPost_value pub)) ∧
     filteredBlogPosts (set_selectedStatus "unpublished" loaded)
       = Returned (VArr (map BlogPost_value unpub)) ∧
     pub ++ unpub ≡ₚ posts) ∧
  ∀ other,
    other ≠ "all" → other ≠ "published" → other ≠ "unpublished" →
    filteredBlogPosts (set_selectedStatus other loaded) = Returned (VArr []).
Proof.
  simpl. split.
  - exists (filter (fun p => post_status_of p = published) posts),
           (filter (fun p => post_status_of p = unpublished) posts).
    unfold filteredBlogPosts. simpl.
    rewrite (filter_items_by_status published), (filter_items_by_status unpublished).
    repeat split.
    rewrite (list_filter_iff (fun p => post_status_of p = unpublished)
               (fun p => ¬ post_status_of p = published)).
    + apply filter_app_complement.
    + intros p. destruct (post_status_of p); split; congruence.
  - intros other Hall Hpub Hunpub. unfold filteredBlogPosts. simpl.
    apply String.eqb_neq in Hall. rewrite Hall.
    rewrite filter_items_by_status_untyped.
    + f_equal. f_equal. induction posts as [| p posts IH]; [reflexivity |].
      simpl. rewrite IH.
      destruct (String.eqb_spec (status_name (post_status_of p)) other) as [Heq | _];
        [| reflexivity].
      by destruct (post_status_of p); simpl in Heq; subst other.
    + apply Forall_forall. intros v Hv. apply list_elem_of_fmap in Hv as (p & -> & _).
      by split.
Qed.

(** X15. A load repeated while "blogs" is still cached sends nothing and
    leaves the posts as the first load left them: without a [clearCache]
    the page cannot see a change on the server. *)
Theorem fetchBlogPosts_again_is_stale s :
  let once := snd (fetchBlogPosts s) in
  is_Some (cache (list_api once) !! "blogs") →
  let twice := snd (fetchBlogPosts once) in
  list_api twice = list_api once ∧
  requests (list_api twice) = requests (list_api once) ∧
  blogPosts twice = blogPosts once.
Proof.
  intros once [cached Hcached] twice.
  destruct (fetchBlogPosts_effect once) as [Hapi2 Hposts2].
  destruct (fetchBlogPosts_effect s) as [Hapi1 Hposts1].
  fold once in Hapi1, Hposts1. fold twice in Hapi2, Hposts2. simpl in *.
  rewrite (fetchData_hit _ _ _ _ Hcached) in Hapi2, Hposts2. simpl in *.
  split; [exact Hapi2 |]. split; [by rewrite Hapi2 |].
  rewrite Hposts2.
  destruct (get_prop cached "data") as [data | e] eqn:Hdata; [| reflexivity].
  rewrite Hposts1.
  destruct (fst (fetchData "blogs" no_options (list_api s))) as [response | e] eqn:Hfirst.
  - pose proof (fetchData_returned _ _ _ _ Hfirst) as Hstored.
    rewrite <- Hapi1, Hcached in Hstored. injection Hstored as ->.
    by rewrite Hdata.
  - destruct (fetchData_thrown _ _ _ _ Hfirst) as [Hmiss Hstate].
    rewrite Hapi1, Hstate in Hcached. simpl in Hcached. congruence.
Qed.

(** X16. For a limit that is a length, truncating twice is truncating
    once, and the result is never longer than the limit plus the three
    characters of the marker. *)
Theorem truncateContent_idempotent_bounded (content : string) (maxLength : Z) :
  (0 ≤ maxLength)%Z →
  truncateContent (truncateContent content maxLength) maxLength
    = truncateContent content maxLength ∧
  (Z.of_nat (String.length (truncateContent content maxLength)) ≤
     Z.max (Z.of_nat (String.length content)) (maxLength + 3))%Z ∧
  ((maxLength < Z.of_nat (String.length content))%Z →
   Z.of_nat (String.length (truncateContent content maxLength)) = (maxLength + 3)%Z).
Proof.
  intros Hpos.
  destruct (Z.leb_spec (Z.of_nat (String.length content)) maxLength) as [Hfits | Hlong].
  - assert (Hsame : truncateContent content maxLength = content).
    { unfold truncateContent.
      by destruct (Z.leb_spec (Z.of_nat (String.length content)) maxLength); [| lia]. }
    rewrite !Hsame. split; [reflexivity | split; lia].
  - assert (Hslice : ∀ text, (maxLength ≤ Z.of_nat (String.length text))%Z →
                slice text 0 maxLength = substring 0 (Z.to_nat maxLength) text).
    { intros text Htext. unfold slice. simpl.
      destruct (Z.ltb_spec maxLength 0); [lia |].
      rewrite !Z.min_l by lia. by rewrite Z.sub_0_r, Z.max_l by lia. }
    destruct (substring_prefix (Z.to_nat maxLength) content ltac:(lia))
      as (rest & _ & Hlen).
    set (head := substring 0 (Z.to_nat maxLength) content) in *.
    assert (Hcut : truncateContent content maxLength = head ++ "...").
    { unfold truncateContent.
      destruct (Z.leb_spec (Z.of_nat (String.length content)) maxLength); [lia |].
      by rewrite Hslice by lia. }
    assert (Hsize : Z.of_nat (String.length (head ++ "...")) = (maxLength + 3)%Z).
    { rewrite length_string_app, Hlen. simpl. lia. }
    rewrite !Hcut. split; [| split; [lia | intros _; exact Hsize]].
    unfold truncateContent.
    destruct (Z.leb_spec (Z.of_nat (String.length (head ++ "..."))) maxLength); [lia |].
    f_equal. rewrite Hslice by lia.
    rewrite <- Hlen. apply substring_app_exact.
Qed.

(** X17. A negative limit is taken from the end of the text: the last
    [-maxLength] characters are dropped (all of them when the text is
    shorter), and the marker is appended even to an empty rest. *)
Theorem truncateContent_negative_limit_drops_tail (content : string) (maxLength : Z) :
  (maxLength < 0)%Z →
  ∃ head tail,
    content = head ++ tail ∧
    Z.of_nat (String.length tail) =
      Z.min (- maxLength) (Z.of_nat (String.length content)) ∧
    truncateContent content maxLength = head ++ "...".
Proof.
  intros Hneg. unfold truncateContent.
  destruct (Z.leb_spec (Z.of_nat (String.length content)) maxLength); [lia |].
  unfold slice.
  rewrite (proj2 (Z.ltb_ge 0 0)) by lia. rewrite (proj2 (Z.ltb_lt maxLength 0)) by lia.
  rewrite (Z.min_l 0) by lia. rewrite Z.sub_0_r.
  rewrite (Z.max_l (Z.max _ _) 0) by lia. change (Z.to_nat 0) with 0%nat.
  set (n := Z.to_nat (Z.max (Z.of_nat (String.length content) + maxLength) 0)).
  assert (Hn : (n ≤ String.length content)%nat) by (unfold n; lia).
  destruct (substring_prefix n content Hn) as (tail & Hsplit & Hlen).
  exists (substring 0 n content), tail.
  split; [exact Hsplit |]. split; [| reflexivity].
  apply (f_equal String.length) in Hsplit.
  rewrite length_string_app, Hlen in Hsplit. unfold n in Hsplit. lia.
Qed.

End BlogListHistory.

(** ** The blog post form component *)

Lemma get_prop_thrown (v : value) (k : string) (e : js_error) :
  get_prop v k = Thrown e → err_response e = VUndef.
Proof. destruct v; simpl; intros [= <-]; reflexivity. Qed.

Section BlogPostFormMore.

Context {env : Environment}.

(** Every exception of the author lookup is a native [TypeError]. *)
Lemma resolve_authorId_thrown s e :
  resolve_authorId s = Thrown e → err_response e = VUndef.
Proof.
  unfold resolve_authorId, find_selectedAuthor.
  destruct (authors s) as [| | | | | items |]; simpl; try (intros [= <-]; reflexivity).
  assert (Hfind : ∀ r, find_item
                         (fun author =>
                            match get_prop author "name" with
                            | Thrown e => Thrown e
                            | Returned name => Returned (strict_eq name (currentAuthor s))
                            end) items = r →
                       match r with
                       | Thrown e' => err_response e' = VUndef
                       | Returned _ => True
                       end).
  { induction items as [| x items IH]; intros r <-; simpl; [exact I |].
    destruct (get_prop x "name") as [name | e'] eqn:Hx.
    - destruct (strict_eq name (currentAuthor s)); [exact I | by apply IH].
    - by apply get_prop_thrown in Hx. }
  destruct (find_item _ items) as [selected | e'] eqn:Hf.
  - destruct (truthy selected); apply get_prop_thrown.
  - intros [= <-]. exact (Hfind _ eq_refl).
Qed.

(** An error without a [response] property gets the generic message. *)
Lemma submitForm_catch_native e s :
  err_response e = VUndef →
  submitForm_catch e s =
    (Returned tt, push_error "An unexpected error occurred. Please try again." s).
Proof. intros He. unfold submitForm_catch. by rewrite He. Qed.

Abbreviation submit_key s :=
  (if isEditMode s then "blogs/" ++ to_string (get_prop_opt (blogPost s) "id")
   else "blogs").

Abbreviation submit_options s authorId :=
  (if isEditMode s then PUT (payload_of (form s) authorId)
   else POST (payload_of (form s) authorId)).

Abbreviation entering s := (set_isSubmitting true (set_errors [] s)).

Abbreviation leaving s :=
  (set_form_api (cache_delete "blogs" (form_api s)) (set_isSubmitting false s)).

(** The paths of [submitForm], one by one. *)
Lemma submitForm_paths s :
  snd (submitForm s) =
    match resolve_authorId s with
    | Thrown e => leaving (snd (submitForm_catch e (entering s)))
    | Returned authorId =>
        if truthy authorId then
          match fetchData (submit_key s) (submit_options s authorId) (form_api s) with
          | (Returned _, a) => leaving (navigateTo "/" (set_form_api a (entering s)))
          | (Thrown e, a) =>
              leaving (snd (submitForm_catch e (set_form_api a (entering s))))
          end
        else leaving (push_error "Author is required." (entering s))
    end.
Proof.
  unfold submitForm, submitForm_try, form_api_call. unfold_M. simpl.
  rewrite resolve_authorId_entering.
  destruct (resolve_authorId s) as [authorId | e]; simpl.
  - destruct (truthy authorId); simpl; [| reflexivity].
    change (isEditMode (entering s)) with (isEditMode s).
    destruct (isEditMode s); simpl.
    + destruct (fetchData _ (PUT _) (form_api s)) as [[r | e] a]; simpl;
        [reflexivity |].
      by destruct (submitForm_catch e _).
    + destruct (fetchData "blogs" (POST _) (form_api s)) as [[r | e] a]; simpl;
        [reflexivity |].
      by destruct (submitForm_catch e _).
  - by destruct (submitForm_catch e _).
Qed.

Lemma js_or_string (t : string) : js_or (VStr t) (VStr "") = VStr t.
Proof.
  unfold js_or. simpl. by destruct (String.eqb_spec t "") as [-> | _].
Qed.

(** What [fetchBlogPost] does on a page that has a route id. *)
Lemma fetchBlogPost_effect s :
  truthy (route_params_id s) = true →
  let fetched :=
    fetchData ("blogs/" ++ to_string (route_params_id s)) no_options (form_api s) in
  let s' := snd (fetchBlogPost s) in
  fst (fetchBlogPost s) = Returned tt ∧
  form_api s' = snd fetched ∧
  isSubmitting s' = isSubmitting s ∧
  route_params_id s' = route_params_id s ∧
  authors s' = authors s ∧
  form_navigations s' = form_navigations s ∧
  match fst fetched with
  | Returned response =>
      blogPost s' = js_or response VNull ∧
      currentAuthor s' = js_or (get_prop_opt response "author") (VStr "") ∧
      errors s' = errors s
  | Thrown _ =>
      blogPost s' = blogPost s ∧
      currentAuthor s' = currentAuthor s ∧
      form s' = form s ∧
      errors s' = (errors s ++ [VStr "Failed to fetch the blog post."])%list
  end.
Proof.
  intros Hid. simpl.
  unfold fetchBlogPost, assign_blogPost, on_blogPost, form_api_call.
  unfold_M. simpl. rewrite Hid. simpl.
  destruct (fetchData _ no_options (form_api s)) as [[response | e] a']; simpl;
    [| by repeat split].
  destruct (truthy response) eqn:Hresp.
  - assert (Hor : js_or response VNull = response)
      by (unfold js_or; by rewrite Hresp).
    rewrite !Hor, Hresp, !(get_prop_truthy _ _ Hresp).
    destruct (same_as_held _ _ response); simpl; by repeat split.
  - assert (Hor : js_or response VNull = VNull)
      by (unfold js_or; by rewrite Hresp).
    rewrite !Hor. simpl.
    destruct (strict_eq _ VNull); simpl; by repeat split.
Qed.

(** X18. Without a route id [fetchBlogPost] does nothing.  With one, a
    failed request is reported by one more entry in the error list and
    nothing else: the loaded post, the draft, the current author and the
    mode stay, and the call does not reject. *)
Theorem fetchBlogPost_without_id_or_on_failure s :
  (truthy (route_params_id s) = false → fetchBlogPost s = (Returned tt, s)) ∧
  (truthy (route_params_id s) = true →
   ∀ e,
     fst (fetchData ("blogs/" ++ to_string (route_params_id s)) no_options
            (form_api s)) = Thrown e →
     let s' := snd (fetchBlogPost s) in
     fst (fetchBlogPost s) = Returned tt ∧
     errors s' = (errors s ++ [VStr "Failed to fetch the blog post."])%list ∧
     blogPost s' = blogPost s ∧
     form s' = form s ∧
     currentAuthor s' = currentAuthor s ∧
     isEditMode s' = isEditMode s).
Proof.
  split.
  - intros Hnone. unfold fetchBlogPost. unfold_M. by rewrite Hnone.
  - intros Hid e Hthrown.
    destruct (fetchBlogPost_effect s Hid) as (Hret & _ & _ & _ & _ & _ & Hcase).
    simpl in *. rewrite Hthrown in Hcase. destruct Hcase as (Hpost & Hcur & Hform & Herr).
    unfold isEditMode. rewrite Hpost. by repeat split.
Qed.

(** X19. When a well-typed post arrives on a page that holds no post
    yet, the draft takes its title, content and status, and as its author
    the post's author NAME, a plain string (the blank author object when
    the name is empty); the current author is that name.  The page is in
    edit mode unless the post's id is 0. *)
Theorem fetchBlogPost_populates_draft s (rid : string) (p : BlogPost) :
  route_params_id s = VStr rid →
  truthy (VStr rid) = true →
  blogPost s = VNull →
  fst (fetchData ("blogs/" ++ rid) no_options (form_api s))
    = Returned (BlogPost_value p) →
  let s' := snd (fetchBlogPost s) in
  blogPost s' = BlogPost_value p ∧
  form s' = mk_form (VStr (post_title p)) (VStr (post_content p))
              (if String.eqb (post_author p) "" then blank_author
               else VStr (post_author p))
              (VStr (status_name (post_status_of p))) ∧
  currentAuthor s' = VStr (post_author p) ∧
  isEditMode s' = negb (Z.eqb (post_id p) 0) ∧
  errors s' = errors s.
Proof.
  intros Hroute Hrid Hnone Hfetch. simpl.
  unfold fetchBlogPost, assign_blogPost, on_blogPost, form_api_call.
  unfold_M. simpl. rewrite Hroute. simpl. simpl in Hrid. rewrite Hrid. simpl.
  destruct (fetchData ("blogs/" ++ rid) no_options (form_api s)) as [[r | e] a'];
    simpl in Hfetch; [| discriminate Hfetch].
  injection Hfetch as ->.
  simpl. rewrite Hnone. simpl.
  assert (Hfresh : ∀ served : option value,
             match served with Some _ => false | None => false end = false)
    by (by intros []).
  rewrite Hfresh. simpl. rewrite !js_or_string.
  unfold isEditMode. simpl.
  repeat split.
  f_equal.
  - unfold js_or. simpl. by destruct (String.eqb (post_author p) "").
  - by destruct (post_status_of p).
Qed.

(** X20. While the draft's author is a plain string, as it is after a
    post was loaded, and no loaded author bears the current author's
    name, [submitForm] stops at the author check: the one message, no
    request, no navigation, although the post has an author. *)
Theorem submitForm_needs_listed_author s (l : list Author) (name shown : string) :
  authors s = VArr (map Author_value l) →
  currentAuthor s = VStr name →
  Forall (fun a => author_name a ≠ name) l →
  form_author (form s) = VStr shown →
  let s' := snd (submitForm s) in
  errors s' = [VStr "Author is required."] ∧
  requests (form_api s') = requests (form_api s) ∧
  form_navigations s' = form_navigations s.
Proof.
  intros Hauthors Hcurrent Hnone Hdraft. simpl.
  assert (Hresolved : resolve_authorId s = Returned VUndef).
  { rewrite (resolve_authorId_typed s l name Hauthors Hcurrent).
    assert (Hfind : List.find (fun a => String.eqb (author_name a) name) l = None).
    { clear Hauthors.
      induction Hnone as [| a l Ha _ IH]; [reflexivity |].
      simpl. apply String.eqb_neq in Ha. rewrite Ha. exact IH. }
    rewrite Hfind, Hdraft. reflexivity. }
  rewrite submitForm_paths, Hresolved. simpl. by repeat split.
Qed.

(** X21. [fetchAuthors] stores the [data] of the response as it is -- also
    [undefined], when the field is missing, and then without any report --
    and on a failed request or an unreadable response it adds one entry to
    the error list and keeps the authors it had.  It does not reject. *)
Theorem fetchAuthors_effect s :
  let fetched := fetchData "authors" no_options (form_api s) in
  let s' := snd (fetchAuthors s) in
  fst (fetchAuthors s) = Returned tt ∧
  form_api s' = snd fetched ∧
  match fst fetched with
  | Returned response =>
      match get_prop response "data" with
      | Returned data => authors s' = data ∧ errors s' = errors s
      | Thrown _ =>
          authors s' = authors s ∧
          errors s' = (errors s ++ [VStr "Failed to fetch authors."])%list
      end
  | Thrown _ =>
      authors s' = authors s ∧
      errors s' = (errors s ++ [VStr "Failed to fetch authors."])%list
  end ∧
  (∀ fields, fst fetched = Returned (VObj fields) →
             assoc "data" fields = VUndef →
             authors s' = VUndef ∧ errors s' = errors s).
Proof.
  simpl. unfold fetchAuthors, form_api_call. unfold_M. simpl.
  destruct (fetchData "authors" no_options (form_api s)) as [[response | e] a']; simpl.
  - destruct (get_prop response "data") as [data | e] eqn:Hdata; simpl.
    + do 3 (split; [by auto |]).
      intros fields [= ->] Hmissing. simpl in Hdata.
      injection Hdata as <-. by rewrite Hmissing.
    + do 3 (split; [by auto |]).
      intros fields [= ->] _. discriminate Hdata.
  - do 3 (split; [by auto |]). intros fields Hf. discriminate Hf.
Qed.

(** X22. When the stored authors are not an array -- as after a response
    without [data] -- every submission ends in the generic message:
    nothing is sent and the page stays. *)
Theorem submitForm_without_author_list s :
  is_array (authors s) = false →
  let s' := snd (submitForm s) in
  errors s' = [VStr "An unexpected error occurred. Please try again."] ∧
  requests (form_api s') = requests (form_api s) ∧
  form_navigations s' = form_navigations s.
Proof.
  intros Hnot. simpl. rewrite submitForm_paths.
  destruct (resolve_authorId s) as [authorId | e] eqn:Hres.
  - unfold resolve_authorId, find_selectedAuthor in Hres.
    destruct (authors s); simpl in *; discriminate.
  - rewrite (submitForm_catch_native _ _ (resolve_authorId_thrown _ _ Hres)).
    simpl. by repeat split.
Qed.

(** X23. When the request of a submission is answered with a non-success
    status, the error list is the generic message alone, whatever the
    body of the reply says; the page stays and nothing is cached. *)
Theorem submitForm_http_error_is_generic s authorId resp :
  resolve_authorId s = Returned authorId →
  truthy authorId = true →
  cache (form_api s) !! submit_key s = None →
  net (requests (form_api s)) (request_for (submit_key s) (submit_options s authorId))
    = Arrived resp →
  resp_ok resp = false →
  let s' := snd (submitForm s) in
  errors s' = [VStr "An unexpected error occurred. Please try again."] ∧
  form_navigations s' = form_navigations s ∧
  requests (form_api s') =
    (requests (form_api s) ++
       [request_for (submit_key s) (submit_options s authorId)])%list ∧
  cache (form_api s') = delete "blogs" (cache (form_api s)).
Proof.
  intros Hres Htruthy Hmiss Hnet Hok. simpl.
  rewrite submitForm_paths, Hres, Htruthy.
  rewrite (fetchData_miss _ _ _ Hmiss). simpl. rewrite Hnet, Hok. simpl.
  by repeat split.
Qed.

(** X24. With a server whose failures are native errors, a submission
    has three ends: it navigates to "/" with an empty error list, or it
    stays with the single message "Author is required.", or it stays with
    the single generic message.  Earlier messages are gone in each case. *)
Theorem submitForm_outcomes s :
  (∀ sent r e, net sent r = NetworkFailure e → err_response e = VUndef) →
  (∀ sent r resp e,
     net sent r = Arrived resp → resp_json resp = Thrown e → err_response e = VUndef) →
  let s' := snd (submitForm s) in
  errors s' = [] ∧ form_navigations s' = (form_navigations s ++ ["/"])%list ∨
  form_navigations s' = form_navigations s ∧
  (errors s' = [VStr "Author is required."] ∨
   errors s' = [VStr "An unexpected error occurred. Please try again."]).
Proof.
  intros Hnet Hjson. simpl. rewrite submitForm_paths.
  destruct (resolve_authorId s) as [authorId | e] eqn:Hres.
  - destruct (truthy authorId); [| right; split; [reflexivity | by left]].
    destruct (fetchData _ _ (form_api s)) as [[r | e] a] eqn:Hcall;
      [left; by split |].
    assert (Hnative : err_response e = VUndef).
    { assert (Hthrown : fst (fetchData (submit_key s) (submit_options s authorId)
                               (form_api s)) = Thrown e) by (by rewrite Hcall).
      destruct (fetchData_thrown _ _ _ _ Hthrown) as [Hmiss _].
      rewrite (fetchData_miss _ _ _ Hmiss) in Hcall. simpl in Hcall.
      destruct (net _ _) as [e' | resp] eqn:Hreply.
      - injection Hcall as <- _. by eapply Hnet.
      - destruct (resp_ok resp); [| by injection Hcall as <- _].
        destruct (resp_json resp) as [d | e'] eqn:Hbody; [discriminate Hcall |].
        injection Hcall as <- _. by eapply Hjson. }
    rewrite (submitForm_catch_native _ _ Hnative). simpl.
    right. split; [reflexivity | by right].
  - rewrite (submitForm_catch_native _ _ (resolve_authorId_thrown _ _ Hres)).
    simpl. right. split; [reflexivity | by right].
Qed.

(** A call leaves the entries of the other endpoints alone. *)
Lemma fetchData_other_entry endpoint options a other :
  other ≠ endpoint →
  cache (snd (fetchData endpoint options a)) !! other = cache a !! other.
Proof.
  intros Hne. destruct (cache a !! endpoint) eqn:Hc.
  - by rewrite (fetchData_hit _ _ _ _ Hc).
  - rewrite (fetchData_miss _ _ _ Hc). simpl.
    destruct (net _ _) as [e | resp]; simpl; [reflexivity |].
    destruct (resp_ok resp); simpl; [| reflexivity].
    destruct (resp_json resp); simpl; [| reflexivity].
    by rewrite lookup_insert_ne.
Qed.

(** What [fetchAuthors] leaves alone, and its one call. *)
Lemma fetchAuthors_frame s :
  let s' := snd (fetchAuthors s) in
  fst (fetchAuthors s) = Returned tt ∧
  form_api s' = snd (fetchData "authors" no_options (form_api s)) ∧
  blogPost s' = blogPost s ∧
  route_params_id s' = route_params_id s ∧
  isSubmitting s' = isSubmitting s.
Proof.
  simpl. unfold fetchAuthors, form_api_call. unfold_M. simpl.
  destruct (fetchData "authors" no_options (form_api s)) as [[response | e] a']; simpl;
    [| by repeat split].
  destruct (get_prop response "data"); by repeat split.
Qed.

(** The [catch] block of [submitForm] changes the error list only. *)
Lemma submitForm_catch_sets_errors e s :
  ∃ es, submitForm_catch e s = (Returned tt, set_errors es s).
Proof.
  unfold submitForm_catch.
  destruct (get_prop_opt (get_prop_opt (err_response e) "data") "errors");
    try (eexists; reflexivity).
  destruct (truthy _ && truthy _); eexists; reflexivity.
Qed.

(** What [submitForm] leaves alone, and what it does to the client: at
    most one call of [fetchData], then the removal of "blogs". *)
Lemma submitForm_frame s :
  let s' := snd (submitForm s) in
  (∃ a, (a = form_api s ∨ ∃ key options, a = snd (fetchData key options (form_api s))) ∧
        form_api s' = cache_delete "blogs" a) ∧
  blogPost s' = blogPost s ∧
  route_params_id s' = route_params_id s ∧
  isSubmitting s' = false.
Proof.
  simpl. rewrite submitForm_paths.
  destruct (resolve_authorId s) as [authorId | e].
  - destruct (truthy authorId).
    + destruct (fetchData (submit_key s) (submit_options s authorId) (form_api s))
        as [[r | e] a] eqn:Hcall.
      * simpl. split; [| by repeat split].
        exists a. split; [| reflexivity]. right.
        exists (submit_key s), (submit_options s authorId). by rewrite Hcall.
      * destruct (submitForm_catch_sets_errors e (set_form_api a (entering s)))
          as [es ->].
        simpl. split; [| by repeat split].
        exists a. split; [| reflexivity]. right.
        exists (submit_key s), (submit_options s authorId). by rewrite Hcall.
    + simpl. split; [| by repeat split]. exists (form_api s). by split; [left |].
  - destruct (submitForm_catch_sets_errors e (entering s)) as [es ->].
    simpl. split; [| by repeat split]. exists (form_api s). by split; [left |].
Qed.

Lemma authors_key (x : string) : "authors" ≠ "blogs/" ++ x.
Proof. unfold String.append. discriminate. Qed.

Abbreviation settled rid s :=
  (route_params_id s = rid ∧
   isSubmitting s = false ∧
   cache (form_api s) !! "blogs" = None ∧
   (blogPost s = VNull ∨
    truthy (blogPost s) = true ∧
    cache (form_api s) !! ("blogs/" ++ to_string rid) = Some (blogPost s))).

Lemma run_form_event_settled rid ev s :
  settled rid s → settled rid (run_form_event ev s).
Proof.
  intros (Hroute & Hsub & Hblogs & Hpost). destruct ev; simpl.
  - destruct (truthy (route_params_id s)) eqn:Hid.
    + destruct (fetchBlogPost_effect s Hid)
        as (_ & Hapi & Hs & Hr & _ & _ & Hcase). simpl in *.
      rewrite Hapi, Hs, Hr. rewrite Hroute in *.
      split; [reflexivity |]. split; [exact Hsub |].
      split.
      { rewrite fetchData_other_entry; [exact Hblogs |].
        intros H. by apply (blogs_item_key _ (eq_sym H)). }
      destruct (fst (fetchData _ no_options (form_api s))) as [response | e] eqn:Hf.
      * destruct Hcase as (-> & _).
        unfold js_or. destruct (truthy response) eqn:Hresp; [right | by left].
        split; [exact Hresp |]. by apply fetchData_returned.
      * destruct Hcase as (-> & _).
        destruct Hpost as [Hnull | [Htruthy Hcached]]; [by left | right].
        split; [exact Htruthy |]. by apply fetchData_keeps_entry.
    + assert (Hnoop : fetchBlogPost s = (Returned tt, s))
        by (unfold fetchBlogPost; unfold_M; by rewrite Hid).
      by rewrite Hnoop.
  - destruct (fetchAuthors_frame s) as (_ & Hapi & Hp & Hr & Hs). simpl in *.
    rewrite Hapi, Hp, Hr, Hs.
    split; [exact Hroute |]. split; [exact Hsub |].
    split; [by rewrite fetchData_other_entry |].
    destruct Hpost as [Hnull | [Htruthy Hcached]]; [by left | right].
    split; [exact Htruthy |]. by apply fetchData_keeps_entry.
  - by repeat split.
  - destruct (submitForm_frame s) as ((a & Ha & Hapi) & Hp & Hr & Hs). simpl in *.
    rewrite Hapi, Hp, Hr, Hs. simpl.
    split; [exact Hroute |]. split; [reflexivity |].
    split; [apply lookup_delete_eq |].
    destruct Hpost as [Hnull | [Htruthy Hcached]]; [by left | right].
    split; [exact Htruthy |].
    rewrite lookup_delete_ne by (intros H; by apply (blogs_item_key _ (eq_sym H))).
    destruct Ha as [-> | (key & options & ->)]; [exact Hcached |].
    by apply fetchData_keeps_entry.
Qed.

(** Between two handlers of the form page: the route id is the one of
    the setup, nothing is being submitted, "blogs" is not cached, and a
    loaded post is cached under the key of the route. *)
Lemma form_page_settled rid evs : settled rid (run_form_events evs (form_setup rid)).
Proof.
  unfold run_form_events.
  assert (Hinit : settled rid (form_setup rid)) by (repeat split; by left).
  revert Hinit. generalize (form_setup rid).
  induction evs as [| ev evs IH]; intros s Hs; [exact Hs |].
  simpl. apply IH. by apply run_form_event_settled.
Qed.

(** X25. On the form page, whatever happened before: outside edit mode a
    submission with a resolved author always sends its POST to "blogs",
    exactly one request carrying title, content, author id and status of
    the draft. *)
Theorem create_submission_is_always_sent rid evs authorId :
  let s := run_form_events evs (form_setup rid) in
  isEditMode s = false →
  resolve_authorId s = Returned authorId →
  truthy authorId = true →
  requests (form_api (snd (submitForm s))) =
    (requests (form_api s) ++
       [request_for "blogs"
          (POST (VObj [("title", form_title (form s));
                       ("content", form_content (form s));
                       ("author_id", authorId);
                       ("status", form_status (form s))]))])%list.
Proof.
  intros s Hmode Hres Htruthy.
  destruct (form_page_settled rid evs) as (_ & _ & Hblogs & _). fold s in Hblogs.
  destruct (submitForm_sends_when_not_cached s authorId Hres Htruthy) as [_ Hcreate].
  by apply Hcreate.
Qed.

(** X26. On the form page, whatever happened before: in edit mode, when
    the id of the loaded post prints as the route id, a submission with a
    resolved author sends nothing; it navigates to "/" and reports no
    error. *)
Theorem edit_submission_is_never_sent rid evs authorId :
  let s := run_form_events evs (form_setup rid) in
  isEditMode s = true →
  to_string (get_prop_opt (blogPost s) "id") = to_string rid →
  resolve_authorId s = Returned authorId →
  truthy authorId = true →
  let s' := snd (submitForm s) in
  requests (form_api s') = requests (form_api s) ∧
  form_navigations s' = (form_navigations s ++ ["/"])%list ∧
  errors s' = [].
Proof.
  intros s Hmode Hkey Hres Htruthy.
  destruct (form_page_settled rid evs) as (_ & _ & _ & Hpost). fold s in Hpost.
  destruct Hpost as [Hnull | [_ Hcached]].
  { unfold isEditMode in Hmode. rewrite Hnull in Hmode. discriminate Hmode. }
  simpl. rewrite submitForm_paths, Hres, Htruthy, Hmode, Hkey.
  by rewrite (fetchData_hit _ _ _ _ Hcached).
Qed.

(** X27. Mounting the form sends the request for the post, when the
    route has an id, and then the request for the authors, both without
    method and body, whatever the replies; it does not reject. *)
Theorem form_mounted_requests rid :
  let mounted := form_mounted (form_setup rid) in
  fst mounted = Returned tt ∧
  requests (form_api (snd mounted)) =
    ((if truthy rid then [request_for ("blogs/" ++ to_string rid) no_options] else [])
       ++ [request_for "authors" no_options])%list.
Proof.
  simpl. unfold form_mounted. unfold_M.
  destruct (truthy rid) eqn:Hid.
  - destruct (fetchBlogPost_effect (form_setup rid) Hid) as (Hret & Hapi & _).
    simpl in Hret, Hapi.
    destruct (fetchBlogPost (form_setup rid)) as [[[] | e] s1]; simpl in *;
      [| discriminate Hret].
    destruct (fetchAuthors_frame s1) as (Hret2 & Hapi2 & _). simpl in *.
    split; [exact Hret2 |].
    rewrite Hapi2, fetchData_requests, Hapi.
    rewrite fetchData_other_entry by apply authors_key.
    simpl. rewrite lookup_empty. by rewrite fetchData_requests.
  - assert (Hnoop : fetchBlogPost (form_setup rid) = (Returned tt, form_setup rid))
      by (unfold fetchBlogPost; unfold_M; simpl; by rewrite Hid).
    rewrite Hnoop.
    destruct (fetchAuthors_frame (form_setup rid)) as (Hret2 & Hapi2 & _). simpl in *.
    split; [exact Hret2 |].
    by rewrite Hapi2, fetchData_requests.
Qed.

(** X28. A post request answered with a falsy body, such as [null], is no
    failure: nothing is reported, the body is cached, the page has no
    loaded post and stays out of edit mode with an empty current author;
    a draft typed in before is kept. *)
Theorem fetchBlogPost_falsy_response s response :
  truthy (route_params_id s) = true →
  fst (fetchData ("blogs/" ++ to_string (route_params_id s)) no_options (form_api s))
    = Returned response →
  truthy response = false →
  blogPost s = VNull →
  let s' := snd (fetchBlogPost s) in
  blogPost s' = VNull ∧
  isEditMode s' = false ∧
  currentAuthor s' = VStr "" ∧
  form s' = form s ∧
  errors s' = errors s ∧
  cache (form_api s') !! ("blogs/" ++ to_string (route_params_id s)) = Some response.
Proof.
  intros Hid Hfetch Hfalsy Hnone. simpl.
  pose proof (fetchData_returned _ _ _ _ Hfetch) as Hcache.
  unfold fetchBlogPost, assign_blogPost, on_blogPost, form_api_call.
  unfold_M. simpl. rewrite Hid. simpl.
  destruct (fetchData _ no_options (form_api s)) as [[r | e] a'];
    simpl in Hfetch; [| discriminate Hfetch].
  injection Hfetch as ->. simpl in Hcache.
  assert (Hor : js_or response VNull = VNull) by (unfold js_or; by rewrite Hfalsy).
  rewrite !Hor.
  change (blogPost (set_form_api a' s)) with (blogPost s). rewrite Hnone. simpl.
  repeat split; [| exact Hcache].
  by destruct response.
Qed.

End BlogPostFormMore.

(** ** The further properties on the sample server *)

Lemma fetchData_request_shape_witness :
  ∃ r,
    requests (snd (fetchData (env := Sample.up) "blogs"
                     (mk_init (Some "POST") None {["x-key" := "other"]}) new_api))
      = [r] ∧
    init_headers (req_init r) !! "x-key" = Some "other" ∧
    init_headers (req_init r) !! "Content-Type" = Some "application/json".
Proof.
  destruct (fetchData_request_shape (env := Sample.up) "blogs"
              (mk_init (Some "POST") None {["x-key" := "other"]}) new_api eq_refl)
    as (r & Hlog & _ & _ & _ & Hheaders).
  exists r. split; [exact Hlog |].
  split; [exact (Hheaders "x-key") | exact (Hheaders "Content-Type")].
Defined.

Lemma fetchData_failure_not_cached_witness :
  cache (snd (fetchData (env := Sample.down) "blogs" no_options new_api)) !! "blogs"
  = None.
Proof.
  exact (proj1 (proj2 (fetchData_failure_not_cached (env := Sample.down) "blogs"
                         no_options new_api (Error "Internal Server Error") eq_refl))).
Defined.

Lemma fetchData_only_adds_its_entry_witness :
  cache (snd (fetchData (env := Sample.up) "blogs" no_options
                (cache_set "authors" VNull new_api))) !! "authors"
  = Some VNull.
Proof.
  apply (proj2 (fetchData_only_adds_its_entry (env := Sample.up) "blogs" no_options
                  (cache_set "authors" VNull new_api)) "authors").
  discriminate.
Defined.

Lemma run_calls_skip_cached_witness :
  let a := snd (fetchData (env := Sample.up) "blogs/5" no_options new_api) in
  run_calls (env := Sample.up)
    [CallFetchData "blogs/5" DELETE; CallFetchData "authors" no_options] a
  = run_calls (env := Sample.up) [CallFetchData "authors" no_options] a.
Proof.
  exact (run_calls_skip_cached (env := Sample.up) "blogs/5"
           (BlogPost_value Sample.post5)
           [CallFetchData "blogs/5" DELETE; CallFetchData "authors" no_options]
           (snd (fetchData (env := Sample.up) "blogs/5" no_options new_api))
           eq_refl eq_refl).
Defined.

Lemma cache_entries_justified_witness :
  ∃ earlier options later resp,
    requests (run_calls (env := Sample.up) [CallFetchData "authors" no_options] new_api)
      = (earlier ++ request_for (env := Sample.up) "authors" options :: later)%list ∧
    net (Environment := Sample.up) earlier
      (request_for (env := Sample.up) "authors" options) = Arrived resp ∧
    resp_ok resp = true ∧
    resp_json resp = Returned (VObj [("data", VArr [Author_value Sample.ann])]).
Proof.
  exact (cache_entries_justified (env := Sample.up)
           [CallFetchData "authors" no_options] "authors"
           (VObj [("data", VArr [Author_value Sample.ann])]) eq_refl).
Defined.

Lemma confirmDelete_then_cancelDelete_witness :
  snd (cancelDelete (snd (confirmDelete 5 Sample.list_page))) = Sample.list_page.
Proof.
  apply (confirmDelete_then_cancelDelete 5 Sample.list_page); reflexivity.
Defined.

Lemma proceedDelete_needs_truthy_target_witness :
  proceedDelete (env := Sample.up) Sample.list_page = (Returned tt, Sample.list_page).
Proof.
  apply (proj1 (proceedDelete_needs_truthy_target (env := Sample.up) Sample.list_page)).
  reflexivity.
Defined.

Lemma proceedDelete_success_reloads_witness :
  postToDelete (snd (proceedDelete (env := Sample.up)
                       (snd (confirmDelete 6 Sample.list_page)))) = VNull.
Proof.
  apply (proceedDelete_success_reloads (env := Sample.up)
           (snd (confirmDelete 6 Sample.list_page))
           (mk_response true "" (Returned (VObj [("message", VStr "done")])))
           (VObj [("message", VStr "done")]) eq_refl eq_refl eq_refl eq_refl eq_refl).
Defined.

Lemma proceedDelete_failure_keeps_cache_witness :
  cache (list_api (snd (proceedDelete (env := Sample.down) Sample.confirming)))
  = cache (list_api Sample.confirming).
Proof.
  apply (proceedDelete_failure_keeps_cache (env := Sample.down) Sample.confirming
           (Error "Internal Server Error") eq_refl eq_refl).
Defined.

Lemma proceedDelete_answered_from_cache_witness :
  let deleted := snd (proceedDelete (env := Sample.up)
                        (snd (confirmDelete 6 Sample.list_page))) in
  let again := snd (confirmDelete 6 deleted) in
  requests (list_api (snd (proceedDelete (env := Sample.up) again))) =
    (requests (list_api again) ++ [request_for (env := Sample.up) "blogs" no_options])%list.
Proof.
  intros deleted again.
  apply (proceedDelete_answered_from_cache (env := Sample.up) again
           (VObj [("message", VStr "done")]) eq_refl eq_refl).
Defined.

Lemma filteredBlogPosts_returns_iff_witness :
  ∃ view, filteredBlogPosts (set_selectedStatus "published" Sample.list_page)
          = Returned view.
Proof.
  apply (filteredBlogPosts_returns_iff (set_selectedStatus "published" Sample.list_page)).
  right. exists [BlogPost_value Sample.post5; BlogPost_value Sample.post6].
  split; [reflexivity |]. repeat constructor; discriminate.
Defined.

Lemma filteredBlogPosts_partition_witness :
  filteredBlogPosts
    (set_selectedStatus "draft"
       (set_blogPosts (VArr (map BlogPost_value [Sample.post5; Sample.post6]))
          list_setup))
  = Returned (VArr []).
Proof.
  apply (proj2 (filteredBlogPosts_partition [Sample.post5; Sample.post6] list_setup));
    discriminate.
Defined.

Lemma fetchBlogPosts_again_is_stale_witness :
  blogPosts (snd (fetchBlogPosts (env := Sample.up) Sample.list_page))
  = blogPosts Sample.list_page.
Proof.
  apply (fetchBlogPosts_again_is_stale (env := Sample.up) list_setup).
  eexists. reflexivity.
Defined.

Lemma truncateContent_idempotent_bounded_witness :
  truncateContent (truncateContent "0123456789X" 10) 10 = truncateContent "0123456789X" 10.
Proof.
  apply (truncateContent_idempotent_bounded "0123456789X" 10). lia.
Defined.

Lemma truncateContent_negative_limit_drops_tail_witness :
  ∃ head tail,
    "hello" = head ++ tail ∧
    Z.of_nat (String.length tail) = Z.min (- -2) (Z.of_nat (String.length "hello")) ∧
    truncateContent "hello" (-2) = head ++ "...".
Proof.
  apply (truncateContent_negative_limit_drops_tail "hello" (-2)). lia.
Defined.

Lemma fetchBlogPost_without_id_or_on_failure_witness :
  fetchBlogPost (env := Sample.up) (form_setup VUndef)
    = (Returned tt, form_setup VUndef) ∧
  errors (snd (fetchBlogPost (env := Sample.down) (form_setup (VStr "5"))))
    = [VStr "Failed to fetch the blog post."].
Proof.
  split.
  - apply (proj1 (fetchBlogPost_without_id_or_on_failure (env := Sample.up)
                    (form_setup VUndef))).
    reflexivity.
  - apply (proj2 (fetchBlogPost_without_id_or_on_failure (env := Sample.down)
                    (form_setup (VStr "5"))) eq_refl
             (Error "Internal Server Error") eq_refl).
Defined.

Lemma fetchBlogPost_populates_draft_witness :
  form_author (form (snd (fetchBlogPost (env := Sample.up) (form_setup (VStr "5")))))
  = VStr "Ann".
Proof.
  pose proof (fetchBlogPost_populates_draft (env := Sample.up) (form_setup (VStr "5"))
                "5" Sample.post5 eq_refl eq_refl eq_refl eq_refl) as (_ & Hform & _).
  simpl in Hform. by rewrite Hform.
Defined.

Lemma submitForm_needs_listed_author_witness :
  errors (snd (submitForm (env := Sample.up)
                 (set_authors (VArr [Author_value (mk_author 2 "Bob")])
                    Sample.edit_page)))
  = [VStr "Author is required."].
Proof.
  apply (submitForm_needs_listed_author (env := Sample.up)
           (set_authors (VArr [Author_value (mk_author 2 "Bob")]) Sample.edit_page)
           [mk_author 2 "Bob"] "Ann" "Ann").
  - reflexivity.
  - reflexivity.
  - repeat constructor. discriminate.
  - reflexivity.
Defined.

Lemma fetchAuthors_effect_witness :
  authors (snd (fetchAuthors (env := Sample.up)
                  (set_form_api (cache_set "authors" (VObj []) new_api)
                     (form_setup VUndef))))
  = VUndef.
Proof.
  pose proof (fetchAuthors_effect (env := Sample.up)
                (set_form_api (cache_set "authors" (VObj []) new_api)
                   (form_setup VUndef))) as H.
  simpl in H. destruct H as (_ & _ & _ & Hmissing).
  apply (Hmissing []); reflexivity.
Defined.

Lemma submitForm_without_author_list_witness :
  errors (snd (submitForm (env := Sample.up) (set_authors VUndef Sample.create_page)))
  = [VStr "An unexpected error occurred. Please try again."].
Proof.
  apply (submitForm_without_author_list (env := Sample.up)
           (set_authors VUndef Sample.create_page) eq_refl).
Defined.

Lemma submitForm_http_error_is_generic_witness :
  errors (snd (submitForm (env := Sample.down)
                 (set_currentAuthor (VStr "Ann") Sample.create_page)))
  = [VStr "An unexpected error occurred. Please try again."].
Proof.
  apply (submitForm_http_error_is_generic (env := Sample.down)
           (set_currentAuthor (VStr "Ann") Sample.create_page) (VNum 1)
           (mk_response false "Internal Server Error"
              (Thrown (SyntaxError "Unexpected token I in JSON")))
           eq_refl eq_refl eq_refl eq_refl eq_refl).
Defined.

Lemma submitForm_outcomes_witness :
  let s' := snd (submitForm (env := Sample.down)
                   (set_currentAuthor (VStr "Ann") Sample.create_page)) in
  errors s' = [] ∧ form_navigations s' = ["/"] ∨
  form_navigations s' = [] ∧
  (errors s' = [VStr "Author is required."] ∨
   errors s' = [VStr "An unexpected error occurred. Please try again."]).
Proof.
  apply (submitForm_outcomes (env := Sample.down)
           (set_currentAuthor (VStr "Ann") Sample.create_page)).
  - intros sent r e H. discriminate H.
  - intros sent r resp e H Hjson. injection H as <-. simpl in Hjson.
    injection Hjson as <-. reflexivity.
Defined.

Lemma create_submission_is_always_sent_witness :
  let s := run_form_events (env := Sample.up)
             [FormFetchAuthors;
              FormInput (mk_form (VStr "New") (VStr "Text") (Author_value Sample.ann)
                           (VStr "unpublished"))]
             (form_setup VUndef) in
  requests (form_api (snd (submitForm (env := Sample.up) s))) =
    (requests (form_api s) ++
       [request_for (env := Sample.up) "blogs"
          (POST (VObj [("title", VStr "New"); ("content", VStr "Text");
                       ("author_id", VNum 1); ("status", VStr "unpublished")]))])%list.
Proof.
  apply (create_submission_is_always_sent (env := Sample.up) VUndef
           [FormFetchAuthors;
            FormInput (mk_form (VStr "New") (VStr "Text") (Author_value Sample.ann)
                         (VStr "unpublished"))]
           (VNum 1) eq_refl eq_refl eq_refl).
Defined.

Lemma edit_submission_is_never_sent_witness :
  let s := run_form_events (env := Sample.up) [FormFetchBlogPost; FormFetchAuthors]
             (form_setup (VStr "5")) in
  requests (form_api (snd (submitForm (env := Sample.up) s))) = requests (form_api s).
Proof.
  apply (edit_submission_is_never_sent (env := Sample.up) (VStr "5")
           [FormFetchBlogPost; FormFetchAuthors] (VNum 1)
           eq_refl eq_refl eq_refl eq_refl).
Defined.

Lemma fetchBlogPost_falsy_response_witness :
  isEditMode (snd (fetchBlogPost (env := Sample.up)
                     (set_form_api (cache_set "blogs/9" VNull new_api)
                        (form_setup (VStr "9")))))
  = false.
Proof.
  apply (fetchBlogPost_falsy_response (env := Sample.up)
           (set_form_api (cache_set "blogs/9" VNull new_api) (form_setup (VStr "9")))
           VNull eq_refl eq_refl eq_refl eq_refl).
Defined.

Lemma value_eqb_refl : ∀ v, value_eqb v v = true.
Proof.
  fix IH 1. intros [| | b | n | t | items | fields]; simpl; try reflexivity.
  - by destruct b.
  - apply Z.eqb_refl.
  - apply String.eqb_refl.
  - induction items as [| x items IHitems]; [reflexivity |].
    by rewrite IH, IHitems.
  - induction fields as [| [k x] fields IHfields]; [reflexivity |].
    by rewrite String.eqb_refl, IH, IHfields.
Qed.

(** ** Loading the post again *)

Section BlogPostFormAgain.
Context {env : Environment}.

(** A post request answered from the cache with the object the ref
    already holds is no change for the ref: the watcher does not run and
    a draft typed in since the load is kept. *)
Lemma fetchBlogPost_again_keeps_draft s post :
  truthy (route_params_id s) = true →
  cache (form_api s) !! ("blogs/" ++ to_string (route_params_id s)) = Some post →
  blogPost s = post →
  truthy post = true →
  let s' := snd (fetchBlogPost s) in
  form s' = form s ∧ blogPost s' = post ∧ form_api s' = form_api s.
Proof.
  intros Hid Hcached Hheld Htruthy. simpl.
  unfold fetchBlogPost, assign_blogPost, form_api_call.
  unfold_M. simpl. rewrite Hid. simpl. rewrite Hcached.
  rewrite (fetchData_hit _ _ _ _ Hcached). simpl. rewrite Hheld.
  assert (Hor : js_or post VNull = post) by (unfold js_or; by rewrite Htruthy).
  rewrite !Hor.
  assert (Hsame : same_as_held (Some post) post post = true).
  { destruct post as [| | b | n | t | items | fields]; simpl; try reflexivity.
    - by destruct b.
    - apply Z.eqb_refl.
    - apply String.eqb_refl.
    - exact (value_eqb_refl (VArr items)).
    - exact (value_eqb_refl (VObj fields)). }
  rewrite Hsame. simpl. by destruct s.
Qed.
End BlogPostFormAgain.

(** On the sample edit page a title typed over the loaded one survives a
    second [fetchBlogPost]. *)
Example edit_page_reload_keeps_typed_draft :
  let typed := set_form (mk_form (VStr "Edited") (VStr "First post") (VStr "Ann")
                           (VStr "published")) Sample.edit_page in
  form (snd (fetchBlogPost (env := Sample.up) typed)) = form typed.
Proof. vm_compute. reflexivity. Qed.
